(** * BIP38 codec and transfer-handler bootstrap of ARK core

    A shallow embedding of [Bip38] (crypto/bip38.ts) and of
    [TransferTransactionHandler.bootstrap] (handlers/two/transfer.ts).

    The class [Bip38] receives its collaborators through its constructor
    ([libraries], [hashAlgorithms], [base58]); the embedding keeps them as
    records of functions.  Every call into a collaborator is recorded in a
    trace, so that statements such as "fails before any key derivation" or
    "scrypt is called with these parameters" are statements about runs. *)

From Stdlib Require Import ZArith Lia List Strings.Byte Ascii String.
From stdpp Require Import base option list gmap strings functions.

Local Open Scope Z_scope.

(** ** Node.js buffers *)

Abbreviation Buffer := (list byte).

(** JavaScript strings are kept as the bytes of their UTF-8 encoding, so
    [Buffer.from(s, "utf8")] is the byte list of the string. *)
Definition Buffer_from_utf8 (s : string) : Buffer := list_byte_of_string s.

(** [Buffer.alloc(n)]: [n] zero bytes. *)
Definition Buffer_alloc (n : nat) : Buffer := repeat x00 n.

(** [buf.slice(start, end)] for non-negative indices; both are clamped to
    the length of the buffer. *)
Definition slice (start stop : nat) (buf : Buffer) : Buffer :=
  take (stop - start) (drop start buf).

(** [source.copy(target, targetStart)]: overwrites [target] from
    [targetStart] on, and stops at the end of [target]. *)
Definition copy (source target : Buffer) (targetStart : nat) : Buffer :=
  take (length target)
       (take targetStart target ++ source
          ++ drop (targetStart + length source) target).

(** [buf.writeUInt8(value, offset)], used by the source at offsets inside
    the buffer only. *)
Definition writeUInt8 (value : byte) (offset : nat) (buf : Buffer) : Buffer :=
  <[offset := value]> buf.

(** [Buffer.concat(list)] and [Buffer.concat(list, totalLength)]: the second
    form truncates or pads with zeros to [totalLength]. *)
Definition Buffer_concat (l : list Buffer) : Buffer := concat l.

Definition Buffer_concat_total (l : list Buffer) (totalLength : nat) : Buffer :=
  take totalLength (concat l ++ repeat x00 totalLength).

Definition byte_to_Z (b : byte) : Z := Z.of_N (Byte.to_N b).

#[global] Instance byte_eq_decision : EqDecision byte := Byte.byte_eq_dec.

(** Arguments typed [BinaryLike] in Node: a string or a buffer. *)
Inductive BinaryLike : Type :=
  | BLString (s : string)
  | BLBuffer (b : Buffer).

(** ** Errors, events and the monad of runs *)

Inductive Exception : Type :=
  | PrivateKeyLengthError (expected actual : Z)
  | Bip38LengthError (expected actual : Z)
  | Bip38PrefixError (expected actual : Z)
  | Bip38TypeError (expected actual : Z)
  | Bip38CompressionError (expected actual : Z)
  | AssertionError (message : string)
  | RangeError
  | UndefinedError
  | Base58Error (message : string)
  | JsError (message : string).

Record ScryptParams : Type := mkScryptParams {
  scrypt_N : Z;
  scrypt_r : Z;
  scrypt_p : Z
}.

Inductive Event : Type :=
  | EvScrypt (secret : BinaryLike) (salt : Buffer) (keylen : nat)
             (params : ScryptParams)
  | EvXor (a b : Buffer)
  | EvCipher (key data : Buffer)
  | EvDecipher (key data : Buffer)
  | EvTweakMul (a b : Buffer)
  | EvPublicKey (key : Buffer) (compressed : bool)
  | EvHash256 (data : BinaryLike)
  | EvHash160 (data : Buffer)
  | EvEncodeCheck (payload : Buffer)
  | EvDecodeCheck (encoded : string).

Definition Trace : Type := list Event.

(** A run: the collaborator calls made so far, and a thrown exception or a
    returned value. *)
Definition M (A : Type) : Type := Trace * (Exception + A).

Definition throw {A : Type} (e : Exception) : M A := ([], inl e).

Definition call {A : Type} (ev : Event) (a : A) : M A := ([ev], inr a).

Definition trace_of {A : Type} (m : M A) : Trace := fst m.

Definition outcome {A : Type} (m : M A) : Exception + A := snd m.

#[global] Instance M_ret : MRet M := fun A a => ([], inr a).

#[global] Instance M_bind : MBind M := fun A B k m =>
  match m with
  | (t, inl e) => (t, inl e)
  | (t, inr a) => let '(t', r) := k a in (t ++ t', r)
  end.

(** [try { m } catch { h }] *)
Definition try_catch {A : Type} (m : M A) (h : Exception -> M A) : M A :=
  match m with
  | (t, inl e) => let '(t', r) := h e in (t ++ t', r)
  | (t, inr a) => (t, inr a)
  end.

(** [buf.readUInt8(offset)]; Node throws a range error outside the buffer. *)
Definition readUInt8 (buf : Buffer) (offset : nat) : M Z :=
  match buf !! offset with
  | Some b => mret (byte_to_Z b)
  | None => throw RangeError
  end.

(** [assert.strictEqual(actual, expected, message)] on numbers. *)
Definition assert_strictEqual (actual expected : Z) (message : string) : M unit :=
  if (actual =? expected) then mret tt else throw (AssertionError message).

(** [assert.deepEqual(actual, expected)] on buffers compares contents. *)
Definition assert_deepEqual (actual expected : Buffer) : M unit :=
  if decide (actual = expected) then mret tt
  else throw (AssertionError "deepEqual").

(** ** The injected collaborators *)

(** [Libraries]: scrypt, xor, AES-256-ECB without padding and with the
    empty IV ([createCipheriv] / [createDecipheriv], [end], [read]), and
    secp256k1.  [fromPrivateKeyWithAlgorithm] is
    [Keys.fromPrivateKeyWithAlgorithm(key, secp256k1, compressed).publicKey]
    read back from hex; it throws [Error(message)] on a key that is not a
    valid scalar of the curve, which is the [inl message] here.
    [lib_allocUnsafe n] is the uninitialised memory that
    [Buffer.allocUnsafe(n)] hands out. *)
Record Libraries : Type := {
  lib_scryptSync : BinaryLike -> Buffer -> nat -> ScryptParams -> Buffer;
  lib_xor : Buffer -> Buffer -> Buffer;
  lib_cipher : Buffer -> Buffer -> Buffer;
  lib_decipher : Buffer -> Buffer -> Buffer;
  lib_privateKeyTweakMul : Buffer -> Buffer -> Buffer;
  lib_fromPrivateKeyWithAlgorithm : Buffer -> bool -> string + Buffer;
  lib_allocUnsafe : nat -> Buffer
}.

Record HashAlgorithms : Type := {
  ha_hash256 : BinaryLike -> Buffer;
  ha_hash160 : Buffer -> Buffer
}.

(** [decodeCheck] throws on a malformed string; [verify] also guards
    against an undefined result. *)
Record Base58 : Type := {
  b58_encodeCheck : Buffer -> string;
  b58_decodeCheck : string -> Exception + option Buffer
}.

Record IDecryptResult : Type := mkDecryptResult {
  privateKey : Buffer;
  compressed : bool
}.

(** ** class Bip38 *)

Section Bip38.

Context (libraries : Libraries) (hashAlgorithms : HashAlgorithms)
        (base58 : Base58).

Definition NULL : Buffer := Buffer_alloc 0.

Definition SCRYPT_PARAMS : ScryptParams :=
  {| scrypt_N := 16384; scrypt_r := 8; scrypt_p := 8 |}.

(** The parameters written out at the second scrypt call of
    [decryptECMult]. *)
Definition SCRYPT_PARAMS_LIGHT : ScryptParams :=
  {| scrypt_N := 1024; scrypt_r := 1; scrypt_p := 1 |}.

(** *** Calls into the collaborators *)

Definition scryptSync (secret : BinaryLike) (salt : Buffer) (keylen : nat)
    (params : ScryptParams) : M Buffer :=
  call (EvScrypt secret salt keylen params)
       (lib_scryptSync libraries secret salt keylen params).

Definition xor (a b : Buffer) : M Buffer :=
  call (EvXor a b) (lib_xor libraries a b).

Definition aes_cipher (key data : Buffer) : M Buffer :=
  call (EvCipher key data) (lib_cipher libraries key data).

Definition aes_decipher (key data : Buffer) : M Buffer :=
  call (EvDecipher key data) (lib_decipher libraries key data).

Definition privateKeyTweakMul (a b : Buffer) : M Buffer :=
  call (EvTweakMul a b) (lib_privateKeyTweakMul libraries a b).

Definition hash256 (data : BinaryLike) : M Buffer :=
  call (EvHash256 data) (ha_hash256 hashAlgorithms data).

Definition hash160 (data : Buffer) : M Buffer :=
  call (EvHash160 data) (ha_hash160 hashAlgorithms data).

Definition encodeCheck (payload : Buffer) : M string :=
  call (EvEncodeCheck payload) (b58_encodeCheck base58 payload).

Definition decodeCheck (encoded : string) : M (option Buffer) :=
  ([EvDecodeCheck encoded], b58_decodeCheck base58 encoded).

(** *** Methods *)

Definition getPublicKey (buffer : Buffer) (compressed : bool) : M Buffer :=
  ([EvPublicKey buffer compressed],
   match lib_fromPrivateKeyWithAlgorithm libraries buffer compressed with
   | inr publicKey => inr publicKey
   | inl message => inl (JsError message)
   end).

Definition getAddressPrivate (privateKey : Buffer) (compressed : bool)
    : M string :=
  publicKey ← getPublicKey privateKey compressed;
  buffer ← hash160 publicKey;
  let payload := Buffer_alloc 21 in
  let payload := writeUInt8 x00 0 payload in
  let payload := copy buffer payload 1 in
  encodeCheck payload.

Definition encryptRaw (buffer : Buffer) (compressed : bool)
    (passphrase : string) : M Buffer :=
  if negb (length buffer =? 32)%nat
  then throw (PrivateKeyLengthError 32 (Z.of_nat (length buffer)))
  else
    address ← getAddressPrivate buffer compressed;
    let secret := Buffer_from_utf8 passphrase in
    h ← hash256 (BLString address);
    let salt := slice 0 4 h in
    scryptBuf ← scryptSync (BLBuffer secret) salt 64 SCRYPT_PARAMS;
    let derivedHalf1 := slice 0 32 scryptBuf in
    let derivedHalf2 := slice 32 64 scryptBuf in
    xorBuf ← xor derivedHalf1 buffer;
    cipherText ← aes_cipher derivedHalf2 xorBuf;
    let result := lib_allocUnsafe libraries (7 + 32) in
    let result := writeUInt8 x01 0 result in
    let result := writeUInt8 x42 1 result in
    let result := writeUInt8 (if compressed then xe0 else xc0) 2 result in
    let result := copy salt result 3 in
    let result := copy cipherText result 7 in
    mret result.

Definition decryptECMult (buffer : Buffer) (passphrase : string)
    : M IDecryptResult :=
  let buffer := drop 1 buffer in
  flag ← readUInt8 buffer 1;
  let compressed := negb (Z.land flag 0x20 =? 0) in
  let hasLotSeq := negb (Z.land flag 0x04 =? 0) in
  _ ← assert_strictEqual (Z.land flag 0x24) flag "Invalid private key.";
  let addressHash := slice 2 6 buffer in
  let ownerEntropy := slice 6 14 buffer in
  let ownerSalt := if hasLotSeq then slice 0 4 ownerEntropy else ownerEntropy in
  let encryptedPart1 := slice 14 22 buffer in
  let encryptedPart2 := slice 22 38 buffer in
  preFactor ← scryptSync (BLString passphrase) ownerSalt 32 SCRYPT_PARAMS;
  passFactor ←
    (if hasLotSeq
     then hash256 (BLBuffer (Buffer_concat [preFactor; ownerEntropy]))
     else mret preFactor);
  publicKey ← getPublicKey passFactor true;
  seedBPass ← scryptSync (BLBuffer publicKey)
                (Buffer_concat [addressHash; ownerEntropy]) 64
                SCRYPT_PARAMS_LIGHT;
  let derivedHalf1 := slice 0 32 seedBPass in
  let derivedHalf2 := slice 32 64 seedBPass in
  decryptedPart2 ← aes_decipher derivedHalf2 encryptedPart2;
  tmp ← xor decryptedPart2 (slice 16 32 derivedHalf1);
  let seedBPart2 := slice 8 16 tmp in
  d2 ← aes_decipher derivedHalf2 (encryptedPart1 ++ slice 0 8 tmp);
  seedBPart1 ← xor d2 (slice 0 16 derivedHalf1);
  let seedB := Buffer_concat_total [seedBPart1; seedBPart2] 24 in
  hseed ← hash256 (BLBuffer seedB);
  privateKey ← privateKeyTweakMul hseed passFactor;
  mret {| privateKey := privateKey; compressed := compressed |}.

Definition decryptRaw (buffer : Buffer) (passphrase : string)
    : M IDecryptResult :=
  if negb (length buffer =? 39)%nat
  then throw (Bip38LengthError 39 (Z.of_nat (length buffer)))
  else
    prefix ← readUInt8 buffer 0;
    if negb (prefix =? 0x01) then throw (Bip38PrefixError 0x01 prefix)
    else
      type ← readUInt8 buffer 1;
      if (type =? 0x43) then decryptECMult buffer passphrase
      else if negb (type =? 0x42) then throw (Bip38TypeError 0x42 type)
      else
        flagByte ← readUInt8 buffer 2;
        let compressed := (flagByte =? 0xe0) in
        if negb compressed && negb (flagByte =? 0xc0)
        then throw (Bip38CompressionError 0xc0 flagByte)
        else
          let salt := slice 3 7 buffer in
          scryptBuf ← scryptSync (BLString passphrase) salt 64 SCRYPT_PARAMS;
          let derivedHalf1 := slice 0 32 scryptBuf in
          let derivedHalf2 := slice 32 64 scryptBuf in
          let privKeyBuf := slice 7 (7 + 32) buffer in
          plainText ← aes_decipher derivedHalf2 privKeyBuf;
          privateKey ← xor derivedHalf1 plainText;
          address ← getAddressPrivate privateKey compressed;
          h ← hash256 (BLString address);
          let checksum := slice 0 4 h in
          _ ← assert_deepEqual salt checksum;
          mret {| privateKey := privateKey; compressed := compressed |}.

Definition encrypt (privateKey : Buffer) (compressed : bool)
    (passphrase : string) : M string :=
  raw ← encryptRaw privateKey compressed passphrase;
  encodeCheck raw.

(** [decryptRaw] reads [buffer.length] first, which throws on an
    undefined buffer. *)
Definition decrypt (bip38 : string) (passphrase : string)
    : M IDecryptResult :=
  decoded ← decodeCheck bip38;
  match decoded with
  | Some buffer => decryptRaw buffer passphrase
  | None => throw UndefinedError
  end.

Definition verify (bip38 : string) : M bool :=
  try_catch
    (decoded ← decodeCheck bip38;
     match decoded with
     | None => mret false
     | Some decoded =>
         if negb (length decoded =? 39)%nat then mret false
         else
           prefix ← readUInt8 decoded 0;
           if negb (prefix =? 0x01) then mret false
           else
             type ← readUInt8 decoded 1;
             flag ← readUInt8 decoded 2;
             if (type =? 0x42) then
               if negb (flag =? 0xc0) && negb (flag =? 0xe0)
               then mret false else mret true
             else if (type =? 0x43) then
               if negb (Z.land flag (Z.lnot 0x24) =? 0)
               then mret false else mret true
             else mret false
     end)
    (fun _ => mret false).

End Bip38.

(** ** TransferTransactionHandler (version two) *)

Record Wallet : Type := mkWallet {
  address : string;
  publicKey : option string;
  balance : Z;
  nonce : Z;
  attributes : gmap string string
}.

(** A row of [transactionRepository.findReceivedTransactions()]. *)
Record ReceivedTransaction : Type := mkReceived {
  recipientId : string;
  amount : Z
}.

(** Modelled from the spec: the wallet repository is not among the sources.
    The spec gives it [findByAddress] and "mutation-in-place semantics", with
    wallets "never deleted, only updated": a store holding one wallet per
    address, where writing to the wallet that a lookup returned updates the
    store. *)
Abbreviation WalletRepository := (string -> Wallet).

Definition findByAddress (repo : WalletRepository) (addr : string) : Wallet :=
  repo addr.

(** [wallet.balance = value] *)
Definition set_balance (wallet : Wallet) (value : Z) : Wallet :=
  {| address := address wallet;
     publicKey := publicKey wallet;
     balance := value;
     nonce := nonce wallet;
     attributes := attributes wallet |}.

(** The body of the loop of [bootstrap]: the wallet found for the recipient
    is the stored one, and its balance is overwritten in place. *)
Definition bootstrap_step (repo : WalletRepository)
    (transaction : ReceivedTransaction) : WalletRepository :=
  let wallet := findByAddress repo (recipientId transaction) in
  <[recipientId transaction :=
      set_balance wallet (balance wallet + amount transaction)]> repo.

(** [bootstrap], given the rows that the awaited query returned. *)
Definition bootstrap (transactions : list ReceivedTransaction)
    (repo : WalletRepository) : WalletRepository :=
  fold_left bootstrap_step transactions repo.

(** The sum of the amounts of the transactions addressed to [addr]. *)
Definition received_total (addr : string)
    (transactions : list ReceivedTransaction) : Z :=
  foldr Z.add 0
    (amount <$> filter (fun t => recipientId t = addr) transactions).

(** ** An executable instance of the collaborators

    Small stand-ins for scrypt, AES, the hashes, secp256k1 and Base58Check.
    They obey the laws assumed of the real ones further down, and let the
    codec run on concrete keys. *)

Definition byte_xor (a b : byte) : byte :=
  let '(a0, (a1, (a2, (a3, (a4, (a5, (a6, a7))))))) := Byte.to_bits a in
  let '(b0, (b1, (b2, (b3, (b4, (b5, (b6, b7))))))) := Byte.to_bits b in
  Byte.of_bits
    (xorb a0 b0, (xorb a1 b1, (xorb a2 b2, (xorb a3 b3,
      (xorb a4 b4, (xorb a5 b5, (xorb a6 b6, xorb a7 b7))))))).

Definition sample_bytes (d : BinaryLike) : Buffer :=
  match d with
  | BLString s => Buffer_from_utf8 s
  | BLBuffer b => b
  end.

Definition sample_pad (n : nat) (b : Buffer) : Buffer :=
  take n (b ++ repeat x00 n).

Definition sample_key_byte (key : Buffer) : byte := default x00 (head key).

(** The big-endian number held in a buffer. *)
Definition be_to_Z (b : Buffer) : Z :=
  fold_left (fun acc x => acc * 256 + byte_to_Z x) b 0.

(** The order of the group of secp256k1. *)
Definition secp256k1_n : Z :=
  0xFFFFFFFFFFFFFFFFFFFFFFFFFFFFFFFEBAAEDCE6AF48A03BBFD25E8CD0364141.

(** The keys that secp256k1 takes: 32 bytes holding a number from 1 to
    the group order less one. *)
Definition valid_scalar (key : Buffer) : bool :=
  (length key =? 32)%nat && (0 <? be_to_Z key) && (be_to_Z key <? secp256k1_n).

Definition sample_libraries : Libraries :=
  {| lib_scryptSync := fun secret salt keylen _ =>
       sample_pad keylen (sample_bytes secret ++ salt);
     lib_xor := zip_with byte_xor;
     lib_cipher := fun key data => map (byte_xor (sample_key_byte key)) data;
     lib_decipher := fun key data => map (byte_xor (sample_key_byte key)) data;
     lib_privateKeyTweakMul := zip_with byte_xor;
     lib_fromPrivateKeyWithAlgorithm := fun key compressed =>
       if valid_scalar key
       then inr ((if compressed then x02 else x04) :: key)
       else inl "Invalid private key.";
     lib_allocUnsafe := fun n => repeat xff n |}.

Definition sample_hashAlgorithms : HashAlgorithms :=
  {| ha_hash256 := fun data => sample_pad 32 (sample_bytes data);
     ha_hash160 := fun data => sample_pad 20 data |}.

Definition sample_base58 : Base58 :=
  {| b58_encodeCheck := string_of_list_byte;
     b58_decodeCheck := fun s => inr (Some (list_byte_of_string s)) |}.

Definition sample_key : Buffer := repeat x11 32.

(** The 32-byte key that is not a scalar of the curve. *)
Definition zero_key : Buffer := repeat x00 32.

(** An EC-multiply record: type 0x43, compression and lot/sequence bits. *)
Definition sample_ec_record : Buffer := [x01; x43; x24] ++ repeat x07 36.

Definition sample_wallet (addr : string) : Wallet :=
  {| address := addr; publicKey := None; balance := 100; nonce := 7;
     attributes := {[ "vote" := "delegate" ]} |}.

Definition sample_transactions : list ReceivedTransaction :=
  [ {| recipientId := "alice"; amount := 5 |};
    {| recipientId := "bob"; amount := 11 |};
    {| recipientId := "alice"; amount := 30 |} ].

(** ** Values computed along a run of the direct mode *)

Section DirectValues.

Context (libraries : Libraries) (hashAlgorithms : HashAlgorithms)
        (base58 : Base58).

(** The address that [getAddressPrivate] returns for a key whose public
    key is [publicKey]. *)
Definition address_of (publicKey : Buffer) : string :=
  b58_encodeCheck base58
    (copy (ha_hash160 hashAlgorithms publicKey)
          (writeUInt8 x00 0 (Buffer_alloc 21)) 1).

(** The first four bytes of [hash256(address)]. *)
Definition address_salt (publicKey : Buffer) : Buffer :=
  slice 0 4 (ha_hash256 hashAlgorithms (BLString (address_of publicKey))).

(** The 64 bytes stretched from a passphrase and the salt of a key. *)
Definition stretch (publicKey : Buffer) (passphrase : string) : Buffer :=
  lib_scryptSync libraries (BLString passphrase) (address_salt publicKey) 64
    SCRYPT_PARAMS.

(** The cipher text stored for [key] under [passphrase]. *)
Definition cipherText_of (publicKey key : Buffer) (passphrase : string)
    : Buffer :=
  let s := stretch publicKey passphrase in
  lib_cipher libraries (slice 32 64 s) (lib_xor libraries (slice 0 32 s) key).

(** The key recovered with [P2] from the record written for [key] under
    [P1]. *)
Definition recovered_key (publicKey key : Buffer) (P1 P2 : string) : Buffer :=
  let s := stretch publicKey P2 in
  lib_xor libraries (slice 0 32 s)
    (lib_decipher libraries (slice 32 64 s) (cipherText_of publicKey key P1)).

(** The 39 bytes of a direct-mode record. *)
Definition direct_record (publicKey key : Buffer) (compressed : bool)
    (passphrase : string) : Buffer :=
  [x01; x42; if compressed then xe0 else xc0]
    ++ address_salt publicKey
    ++ cipherText_of publicKey key passphrase.

End DirectValues.

(** ** Values computed along a run of the EC-multiply path *)

Section ECValues.

Context (libraries : Libraries) (hashAlgorithms : HashAlgorithms).

(** [stripped] is the record without its version byte. *)
Definition ec_ownerEntropy (stripped : Buffer) : Buffer := slice 6 14 stripped.

Definition ec_ownerSalt (hasLotSeq : bool) (stripped : Buffer) : Buffer :=
  if hasLotSeq then slice 0 4 (ec_ownerEntropy stripped)
  else ec_ownerEntropy stripped.

Definition ec_preFactor (hasLotSeq : bool) (stripped : Buffer)
    (passphrase : string) : Buffer :=
  lib_scryptSync libraries (BLString passphrase)
    (ec_ownerSalt hasLotSeq stripped) 32 SCRYPT_PARAMS.

Definition ec_passFactor (hasLotSeq : bool) (stripped : Buffer)
    (passphrase : string) : Buffer :=
  let preFactor := ec_preFactor hasLotSeq stripped passphrase in
  if hasLotSeq
  then ha_hash256 hashAlgorithms
         (BLBuffer (preFactor ++ ec_ownerEntropy stripped))
  else preFactor.

(** The seed-pass stretch, keyed with the public key of the pass factor. *)
Definition ec_seedBPass (stripped publicKey : Buffer) : Buffer :=
  lib_scryptSync libraries (BLBuffer publicKey)
    (slice 2 6 stripped ++ ec_ownerEntropy stripped) 64 SCRYPT_PARAMS_LIGHT.

Definition ec_tmp (stripped publicKey : Buffer) : Buffer :=
  let seedBPass := ec_seedBPass stripped publicKey in
  lib_xor libraries
    (lib_decipher libraries (slice 32 64 seedBPass) (slice 22 38 stripped))
    (slice 16 32 (slice 0 32 seedBPass)).

Definition ec_seedB (stripped publicKey : Buffer) : Buffer :=
  let seedBPass := ec_seedBPass stripped publicKey in
  let tmp := ec_tmp stripped publicKey in
  let seedBPart1 :=
    lib_xor libraries
      (lib_decipher libraries (slice 32 64 seedBPass)
         (slice 14 22 stripped ++ slice 0 8 tmp))
      (slice 0 16 (slice 0 32 seedBPass)) in
  Buffer_concat_total [seedBPart1; slice 8 16 tmp] 24.

(** The private key that [decryptECMult] returns. *)
Definition ec_privateKey (hasLotSeq : bool) (stripped : Buffer)
    (passphrase : string) (publicKey : Buffer) : Buffer :=
  lib_privateKeyTweakMul libraries
    (ha_hash256 hashAlgorithms (BLBuffer (ec_seedB stripped publicKey)))
    (ec_passFactor hasLotSeq stripped passphrase).

(** The collaborator calls of [decryptECMult], in order, up to the key
    derivation of the pass factor. *)
Definition ec_trace_prefix (hasLotSeq : bool) (stripped : Buffer)
    (passphrase : string) : Trace :=
  EvScrypt (BLString passphrase) (ec_ownerSalt hasLotSeq stripped) 32
    SCRYPT_PARAMS
  :: (if hasLotSeq
      then [EvHash256
              (BLBuffer (ec_preFactor hasLotSeq stripped passphrase
                         ++ ec_ownerEntropy stripped))]
      else [])
  ++ [EvPublicKey (ec_passFactor hasLotSeq stripped passphrase) true].

(** The calls that follow once the public key is there. *)
Definition ec_trace_suffix (hasLotSeq : bool) (stripped : Buffer)
    (passphrase : string) (publicKey : Buffer) : Trace :=
  let seedBPass := ec_seedBPass stripped publicKey in
  let tmp := ec_tmp stripped publicKey in
  let seedB := ec_seedB stripped publicKey in
  [ EvScrypt (BLBuffer publicKey)
      (slice 2 6 stripped ++ ec_ownerEntropy stripped) 64 SCRYPT_PARAMS_LIGHT;
    EvDecipher (slice 32 64 seedBPass) (slice 22 38 stripped);
    EvXor (lib_decipher libraries (slice 32 64 seedBPass)
             (slice 22 38 stripped))
          (slice 16 32 (slice 0 32 seedBPass));
    EvDecipher (slice 32 64 seedBPass) (slice 14 22 stripped ++ slice 0 8 tmp);
    EvXor (lib_decipher libraries (slice 32 64 seedBPass)
             (slice 14 22 stripped ++ slice 0 8 tmp))
          (slice 0 16 (slice 0 32 seedBPass));
    EvHash256 (BLBuffer seedB);
    EvTweakMul (ha_hash256 hashAlgorithms (BLBuffer seedB))
      (ec_passFactor hasLotSeq stripped passphrase) ].

End ECValues.

(** ** The structural check of [verify], in the words of the spec

    "Check length == 39, byte0 == 0x01, type byte in {0x42, 0x43}; for 0x42
    flag must be 0xC0/0xE0; for 0x43 flag must satisfy flag & ~0x24 == 0." *)
Definition header_accepted (decoded : Buffer) : bool :=
  match decoded with
  | prefix :: type :: flag :: _ =>
      (length decoded =? 39)%nat
      && (byte_to_Z prefix =? 0x01)
      && (((byte_to_Z type =? 0x42)
           && ((byte_to_Z flag =? 0xc0) || (byte_to_Z flag =? 0xe0)))
          || ((byte_to_Z type =? 0x43)
              && (Z.land (byte_to_Z flag) (Z.lnot 0x24) =? 0)))
  | _ => false
  end.

(** ** Reading traces *)


Definition is_scrypt (ev : Event) : bool :=
  match ev with
  | EvScrypt _ _ _ _ => true
  | _ => false
  end.

(** The parameter sets of the scrypt calls of a trace, in order. *)
Definition scrypt_params (t : Trace) : list ScryptParams :=
  omap (fun ev => match ev with
                  | EvScrypt _ _ _ params => Some params
                  | _ => None
                  end) t.

(** Every AES call of a trace gets a 32-byte key and whole 16-byte blocks. *)
Definition aes_call_aligned (ev : Event) : Prop :=
  match ev with
  | EvCipher key data | EvDecipher key data =>
      length key = 32%nat /\ (16 | length data)%nat
  | _ => True
  end.

(** The flag bytes that the EC-multiply path lets through. *)
Definition ec_flag_values : list Z := [0x00; 0x04; 0x20; 0x24].

(** ** Sums over a ledger *)

(** The balances held for a list of addresses, added up. *)
Definition total_balance (repo : WalletRepository) (addrs : list string) : Z :=
  foldr Z.add 0 ((fun a => balance (findByAddress repo a)) <$> addrs).

(** The amounts of a list of received transactions, added up. *)
Definition total_amount (transactions : list ReceivedTransaction) : Z :=
  foldr Z.add 0 (amount <$> transactions).

(** ** What is assumed of the collaborators *)

Record CollaboratorLaws (libraries : Libraries)
    (hashAlgorithms : HashAlgorithms) (base58 : Base58) : Prop := {
  (* Node reads a string secret as its UTF-8 bytes. *)
  scrypt_utf8 : forall s salt keylen params,
    lib_scryptSync libraries (BLString s) salt keylen params
    = lib_scryptSync libraries (BLBuffer (Buffer_from_utf8 s)) salt keylen params;
  scrypt_length : forall secret salt keylen params,
    length (lib_scryptSync libraries secret salt keylen params) = keylen;
  xor_length : forall a b,
    length a = length b -> length (lib_xor libraries a b) = length a;
  xor_involutive : forall a b,
    length a = length b -> lib_xor libraries a (lib_xor libraries a b) = b;
  (* AES-256-ECB without padding, on whole blocks. *)
  cipher_length : forall key data,
    length key = 32%nat -> (16 | length data)%nat ->
    length (lib_cipher libraries key data) = length data;
  decipher_cipher : forall key data,
    length key = 32%nat -> (16 | length data)%nat ->
    lib_decipher libraries key (lib_cipher libraries key data) = data;
  hash256_length : forall data,
    length (ha_hash256 hashAlgorithms data) = 32%nat;
  allocUnsafe_length : forall n,
    length (lib_allocUnsafe libraries n) = n;
  decodeCheck_encodeCheck : forall payload,
    b58_decodeCheck base58 (b58_encodeCheck base58 payload)
    = inr (Some payload)
}.

(** ** Runs: traces and outcomes of binds *)

Lemma outcome_bind {A B : Type} (m : M A) (k : A -> M B) :
  outcome (m ≫= k)
  = match outcome m with inl e => inl e | inr a => outcome (k a) end.
Proof.
  destruct m as [t [e | a]]; [reflexivity |].
  unfold mbind, M_bind, outcome; simpl. destruct (k a); reflexivity.
Qed.

Lemma trace_bind {A B : Type} (m : M A) (k : A -> M B) :
  trace_of (m ≫= k)
  = trace_of m ++ match outcome m with inl _ => [] | inr a => trace_of (k a) end.
Proof.
  destruct m as [t [e | a]]; unfold mbind, M_bind, trace_of, outcome; simpl.
  - symmetry. apply app_nil_r.
  - destruct (k a); reflexivity.
Qed.

(** ** Buffers: the layout written by [encryptRaw] *)

Lemma slice_length (start stop : nat) (buf : Buffer) :
  (stop <= length buf)%nat -> length (slice start stop buf) = (stop - start)%nat.
Proof.
  intros H. unfold slice. rewrite length_take, length_drop. lia.
Qed.

Lemma record_layout (A salt ct : Buffer) (f : byte) :
  length A = 39%nat -> length salt = 4%nat -> length ct = 32%nat ->
  copy ct (copy salt (writeUInt8 f 2 (writeUInt8 x42 1 (writeUInt8 x01 0 A))) 3) 7
  = [x01; x42; f] ++ salt ++ ct.
Proof.
  intros HA Hs Hc.
  destruct A as [|a0 [|a1 [|a2 rest]]]; try discriminate HA.
  destruct salt as [|s0 [|s1 [|s2 [|s3 [|s4 salt]]]]]; try discriminate Hs.
  assert (Hr : length rest = 36%nat) by (simpl in HA; lia).
  assert (Hd : length (drop 4 rest) = 32%nat) by (rewrite length_drop; lia).
  unfold copy, writeUInt8. simpl. rewrite Hr. simpl.
  rewrite (take_ge (drop 4 rest) 32) by lia. simpl.
  rewrite Hd, Hc. simpl.
  rewrite (drop_ge (drop 4 rest) 32) by lia.
  rewrite app_nil_r, take_ge by lia. reflexivity.
Qed.

Lemma outcome_bind_inr {A B : Type} (m : M A) (k : A -> M B) (a : A) :
  outcome m = inr a -> outcome (m ≫= k) = outcome (k a).
Proof. intros H. rewrite outcome_bind, H. reflexivity. Qed.

Lemma outcome_bind_inl {A B : Type} (m : M A) (k : A -> M B) (e : Exception) :
  outcome m = inl e -> outcome (m ≫= k) = inl e.
Proof. intros H. rewrite outcome_bind, H. reflexivity. Qed.

(** One step of a run whose next action returns. *)
Ltac run_step :=
  erewrite outcome_bind_inr by reflexivity; cbv beta zeta.

(** Decide the tests on bytes that were read from a known position. *)
Ltac run_tests :=
  cbn [byte_to_Z Byte.to_N Z.of_N Z.eqb Pos.eqb negb andb].

Arguments slice : simpl never.
Arguments copy : simpl never.
Arguments writeUInt8 : simpl never.
Arguments Buffer_alloc : simpl never.

(** ** Stepping through runs *)

Lemma bind_ret_l {A B : Type} (a : A) (k : A -> M B) : mret a ≫= k = k a.
Proof. unfold mbind, M_bind, mret, M_ret. destruct (k a); reflexivity. Qed.

Lemma trace_bind_call {A B : Type} (ev : Event) (a : A) (k : A -> M B) :
  trace_of (call ev a ≫= k) = ev :: trace_of (k a).
Proof. rewrite trace_bind. reflexivity. Qed.

Lemma outcome_bind_call {A B : Type} (ev : Event) (a : A) (k : A -> M B) :
  outcome (call ev a ≫= k) = outcome (k a).
Proof. rewrite outcome_bind. reflexivity. Qed.

Lemma bind_returned {A B : Type} (t : Trace) (a : A) (k : A -> M B) :
  ((t, inr a) : M A) ≫= k = (t ++ trace_of (k a), outcome (k a)).
Proof. unfold mbind, M_bind, trace_of, outcome. destruct (k a); reflexivity. Qed.

Lemma run_eq {A : Type} (m : M A) (t : Trace) (r : Exception + A) :
  trace_of m = t -> outcome m = r -> m = (t, r).
Proof. destruct m. unfold trace_of, outcome. simpl. congruence. Qed.

(** ** Key derivation: returning and throwing *)

Section KeyDerivation.

Context (libraries : Libraries) (hashAlgorithms : HashAlgorithms)
        (base58 : Base58).

Lemma getPublicKey_returns (key : Buffer) (c : bool) (publicKey : Buffer) :
  lib_fromPrivateKeyWithAlgorithm libraries key c = inr publicKey ->
  getPublicKey libraries key c = call (EvPublicKey key c) publicKey.
Proof. intros H. unfold getPublicKey, call. rewrite H. reflexivity. Qed.

Lemma getPublicKey_throws (key : Buffer) (c : bool) (message : string) :
  lib_fromPrivateKeyWithAlgorithm libraries key c = inl message ->
  getPublicKey libraries key c = ([EvPublicKey key c], inl (JsError message)).
Proof. intros H. unfold getPublicKey. rewrite H. reflexivity. Qed.

Lemma getAddressPrivate_returns (key : Buffer) (c : bool)
    (publicKey : Buffer) :
  lib_fromPrivateKeyWithAlgorithm libraries key c = inr publicKey ->
  getAddressPrivate libraries hashAlgorithms base58 key c
  = ([EvPublicKey key c; EvHash160 publicKey;
      EvEncodeCheck (copy (ha_hash160 hashAlgorithms publicKey)
                       (writeUInt8 x00 0 (Buffer_alloc 21)) 1)],
     inr (address_of hashAlgorithms base58 publicKey)).
Proof.
  intros H. unfold getAddressPrivate.
  rewrite (getPublicKey_returns key c publicKey H). reflexivity.
Qed.

Lemma getAddressPrivate_throws (key : Buffer) (c : bool) (message : string) :
  lib_fromPrivateKeyWithAlgorithm libraries key c = inl message ->
  getAddressPrivate libraries hashAlgorithms base58 key c
  = ([EvPublicKey key c], inl (JsError message)).
Proof.
  intros H. unfold getAddressPrivate.
  rewrite (getPublicKey_throws key c message H). reflexivity.
Qed.

Lemma encryptRaw_throws (K : Buffer) (c : bool) (P : string)
    (message : string) :
  length K = 32%nat ->
  lib_fromPrivateKeyWithAlgorithm libraries K c = inl message ->
  encryptRaw libraries hashAlgorithms base58 K c P
  = ([EvPublicKey K c], inl (JsError message)).
Proof.
  intros HK H. unfold encryptRaw. rewrite HK.
  change (negb (32 =? 32)%nat) with false. cbv iota.
  rewrite (getAddressPrivate_throws K c message H). reflexivity.
Qed.

End KeyDerivation.

(** ** The header checks of [decryptRaw] *)

Section Dispatch.

Context (libraries : Libraries) (hashAlgorithms : HashAlgorithms)
        (base58 : Base58).

(** [decryptRaw] once the length test has passed and the three header
    bytes have been read. *)
Lemma decryptRaw_header (buffer : Buffer) (passphrase : string)
    (prefix type flag : Z) :
  length buffer = 39%nat ->
  readUInt8 buffer 0 = mret prefix ->
  readUInt8 buffer 1 = mret type ->
  readUInt8 buffer 2 = mret flag ->
  decryptRaw libraries hashAlgorithms base58 buffer passphrase
  = if negb (prefix =? 0x01) then throw (Bip38PrefixError 0x01 prefix)
    else if (type =? 0x43)
         then decryptECMult libraries hashAlgorithms buffer passphrase
    else if negb (type =? 0x42) then throw (Bip38TypeError 0x42 type)
    else if negb (flag =? 0xe0) && negb (flag =? 0xc0)
         then throw (Bip38CompressionError 0xc0 flag)
    else
      scryptSync libraries (BLString passphrase) (slice 3 7 buffer) 64
        SCRYPT_PARAMS ≫= fun scryptBuf =>
      aes_decipher libraries (slice 32 64 scryptBuf)
        (slice 7 (7 + 32) buffer) ≫= fun plainText =>
      xor libraries (slice 0 32 scryptBuf) plainText ≫= fun privateKey =>
      getAddressPrivate libraries hashAlgorithms base58 privateKey
        (flag =? 0xe0) ≫= fun address =>
      hash256 hashAlgorithms (BLString address) ≫= fun h =>
      assert_deepEqual (slice 3 7 buffer) (slice 0 4 h) ≫= fun _ =>
      mret {| privateKey := privateKey; compressed := (flag =? 0xe0) |}.
Proof.
  intros Hlen H0 H1 H2. unfold decryptRaw. rewrite Hlen.
  change (negb (39 =? 39)%nat) with false. cbv iota.
  rewrite H0, bind_ret_l.
  destruct (negb (prefix =? 1)); [reflexivity |].
  rewrite H1, bind_ret_l.
  destruct (type =? 67); [reflexivity |].
  destruct (negb (type =? 66)); [reflexivity |].
  rewrite H2, bind_ret_l. reflexivity.
Qed.

Lemma header_bytes (buffer : Buffer) :
  length buffer = 39%nat ->
  exists prefix type flag,
    readUInt8 buffer 0 = mret prefix
    /\ readUInt8 buffer 1 = mret type
    /\ readUInt8 buffer 2 = mret flag.
Proof.
  intros Hlen.
  destruct buffer as [|b0 [|b1 [|b2 rest]]]; try discriminate Hlen.
  eexists. eexists. eexists. repeat split.
Qed.

(** The direct path, once the header has been accepted: the calls made
    and the three ways the run can end. *)
Lemma direct_path_run (buffer : Buffer) (passphrase : string) (flag : Z) :
  length buffer = 39%nat ->
  readUInt8 buffer 0 = mret 0x01 ->
  readUInt8 buffer 1 = mret 0x42 ->
  readUInt8 buffer 2 = mret flag ->
  flag = 0xe0 \/ flag = 0xc0 ->
  let s := lib_scryptSync libraries (BLString passphrase) (slice 3 7 buffer)
             64 SCRYPT_PARAMS in
  let plainText :=
    lib_decipher libraries (slice 32 64 s) (slice 7 (7 + 32) buffer) in
  let key := lib_xor libraries (slice 0 32 s) plainText in
  let run := decryptRaw libraries hashAlgorithms base58 buffer passphrase in
  trace_of run
  = [EvScrypt (BLString passphrase) (slice 3 7 buffer) 64 SCRYPT_PARAMS;
     EvDecipher (slice 32 64 s) (slice 7 (7 + 32) buffer);
     EvXor (slice 0 32 s) plainText]
    ++ trace_of (getAddressPrivate libraries hashAlgorithms base58 key
                   (flag =? 0xe0))
    ++ match lib_fromPrivateKeyWithAlgorithm libraries key (flag =? 0xe0) with
       | inr publicKey =>
           [EvHash256 (BLString (address_of hashAlgorithms base58 publicKey))]
       | inl _ => []
       end
  /\ outcome run
     = match lib_fromPrivateKeyWithAlgorithm libraries key (flag =? 0xe0) with
       | inl message => inl (JsError message)
       | inr publicKey =>
           if decide (slice 3 7 buffer
                      = address_salt hashAlgorithms base58 publicKey)
           then inr {| privateKey := key; compressed := (flag =? 0xe0) |}
           else inl (AssertionError "deepEqual")
       end.
Proof.
  intros Hlen H0 H1 H2 Hflag s plainText key run. subst run.
  rewrite (decryptRaw_header buffer passphrase 1 66 flag Hlen H0 H1 H2).
  assert (Hf : negb (flag =? 224) && negb (flag =? 192) = false)
    by (destruct Hflag as [-> | ->]; reflexivity).
  rewrite Hf. change (negb (1 =? 1)) with false.
  change (66 =? 67) with false. change (negb (66 =? 66)) with false.
  cbv iota.
  unfold scryptSync, aes_decipher, xor, hash256.
  split.
  - repeat (rewrite trace_bind_call; cbv beta). fold s plainText key.
    rewrite trace_bind.
    destruct (lib_fromPrivateKeyWithAlgorithm libraries key (flag =? 224))
      as [message | publicKey] eqn:Hpub.
    + rewrite (getAddressPrivate_throws libraries hashAlgorithms base58 key _
                 message Hpub).
      reflexivity.
    + rewrite (getAddressPrivate_returns libraries hashAlgorithms base58 key _
                 publicKey Hpub).
      cbn [outcome snd].
      rewrite trace_bind_call, trace_bind. unfold assert_deepEqual.
      destruct (decide _); reflexivity.
  - repeat (rewrite outcome_bind_call; cbv beta). fold s plainText key.
    rewrite outcome_bind.
    destruct (lib_fromPrivateKeyWithAlgorithm libraries key (flag =? 224))
      as [message | publicKey] eqn:Hpub.
    + rewrite (getAddressPrivate_throws libraries hashAlgorithms base58 key _
                 message Hpub).
      reflexivity.
    + rewrite (getAddressPrivate_returns libraries hashAlgorithms base58 key _
                 publicKey Hpub).
      cbn [outcome snd].
      rewrite outcome_bind_call, outcome_bind. unfold assert_deepEqual.
      change (slice 0 4
                (ha_hash256 hashAlgorithms
                   (BLString (address_of hashAlgorithms base58 publicKey))))
        with (address_salt hashAlgorithms base58 publicKey).
      destruct (decide _); reflexivity.
Qed.

(** C4: [decryptRaw] checks the length, then the prefix byte, then the
    type byte (0x43 goes to [decryptECMult], anything but 0x42 is a type
    error), then on the direct path the flag byte ([compressed] is
    [flag = 0xE0]; neither 0xE0 nor 0xC0 is a compression error).  Each of
    the four errors is raised on an empty trace; the direct path opens with
    the scrypt call, every result it returns carries [flag = 0xE0] as its
    compression flag, and it ends in that result, in the address assertion,
    or in the error thrown by the key derivation of the recovered key. *)
Theorem decryptRaw_dispatch (buffer : Buffer) (passphrase : string) :
  let run := decryptRaw libraries hashAlgorithms base58 buffer passphrase in
  (length buffer <> 39%nat ->
     run = ([], inl (Bip38LengthError 39 (Z.of_nat (length buffer)))))
  /\ (length buffer = 39%nat ->
      (exists prefix type flag,
          readUInt8 buffer 0 = mret prefix
          /\ readUInt8 buffer 1 = mret type
          /\ readUInt8 buffer 2 = mret flag)
      /\ forall prefix type flag,
          readUInt8 buffer 0 = mret prefix ->
          readUInt8 buffer 1 = mret type ->
          readUInt8 buffer 2 = mret flag ->
          (prefix <> 0x01 -> run = ([], inl (Bip38PrefixError 0x01 prefix)))
          /\ (prefix = 0x01 -> type = 0x43 ->
              run = decryptECMult libraries hashAlgorithms buffer passphrase)
          /\ (prefix = 0x01 -> type <> 0x43 -> type <> 0x42 ->
              run = ([], inl (Bip38TypeError 0x42 type)))
          /\ (prefix = 0x01 -> type = 0x42 ->
              flag <> 0xe0 -> flag <> 0xc0 ->
              run = ([], inl (Bip38CompressionError 0xc0 flag)))
          /\ (prefix = 0x01 -> type = 0x42 ->
              flag = 0xe0 \/ flag = 0xc0 ->
              let s := lib_scryptSync libraries (BLString passphrase)
                         (slice 3 7 buffer) 64 SCRYPT_PARAMS in
              let key :=
                lib_xor libraries (slice 0 32 s)
                  (lib_decipher libraries (slice 32 64 s)
                     (slice 7 (7 + 32) buffer)) in
              (exists rest,
                  trace_of run
                  = EvScrypt (BLString passphrase) (slice 3 7 buffer) 64
                      SCRYPT_PARAMS :: rest)
              /\ (forall r, outcome run = inr r ->
                    privateKey r = key /\ compressed r = (flag =? 0xe0))
              /\ ((exists msg, outcome run = inl (AssertionError msg))
                  \/ outcome run
                     = inr {| privateKey := key;
                              compressed := (flag =? 0xe0) |}
                  \/ (exists message,
                        lib_fromPrivateKeyWithAlgorithm libraries key
                          (flag =? 0xe0) = inl message
                        /\ outcome run = inl (JsError message))))).
Proof.
  intros run. split.
  - intros Hlen. subst run. unfold decryptRaw.
    apply Nat.eqb_neq in Hlen. rewrite Hlen. reflexivity.
  - intros Hlen. split.
    { apply header_bytes, Hlen. }
    intros prefix type flag H0 H1 H2.
    split; [| split; [| split; [| split]]].
    + intros Hp. subst run.
      rewrite (decryptRaw_header buffer passphrase prefix type flag
                 Hlen H0 H1 H2).
      apply Z.eqb_neq in Hp. rewrite Hp. reflexivity.
    + intros -> ->. subst run.
      rewrite (decryptRaw_header buffer passphrase 1 67 flag Hlen H0 H1 H2).
      reflexivity.
    + intros -> H43 H42. subst run.
      rewrite (decryptRaw_header buffer passphrase 1 type flag Hlen H0 H1 H2).
      apply Z.eqb_neq in H43, H42. rewrite H43, H42. reflexivity.
    + intros -> -> He0 Hc0. subst run.
      rewrite (decryptRaw_header buffer passphrase 1 66 flag Hlen H0 H1 H2).
      apply Z.eqb_neq in He0, Hc0. rewrite He0, Hc0. reflexivity.
    + intros -> -> Hflag s key.
      destruct (direct_path_run buffer passphrase flag Hlen H0 H1 H2 Hflag)
        as [Ht Ho].
      cbv zeta in Ht, Ho. fold run in Ht, Ho. fold s in Ht, Ho.
      fold key in Ht, Ho.
      split; [| split].
      * eexists. rewrite Ht. reflexivity.
      * intros r Hr. rewrite Ho in Hr.
        destruct (lib_fromPrivateKeyWithAlgorithm libraries key (flag =? 224));
          [discriminate Hr |].
        destruct (decide _); [| discriminate Hr].
        injection Hr as <-. split; reflexivity.
      * rewrite Ho.
        destruct (lib_fromPrivateKeyWithAlgorithm libraries key (flag =? 224))
          as [message | publicKey].
        -- right. right. exists message. split; reflexivity.
        -- destruct (decide _).
           ++ right. left. reflexivity.
           ++ left. eexists. reflexivity.
Qed.

End Dispatch.

(** ** The direct mode under the laws of the collaborators *)

Section DirectMode.

Context (libraries : Libraries) (hashAlgorithms : HashAlgorithms)
        (base58 : Base58).
Context (HL : CollaboratorLaws libraries hashAlgorithms base58).

Local Abbreviation salt_of := (address_salt hashAlgorithms base58).
Local Abbreviation stretch_of := (stretch libraries hashAlgorithms base58).
Local Abbreviation cipher_of :=
  (cipherText_of libraries hashAlgorithms base58).
Local Abbreviation record_of := (direct_record libraries hashAlgorithms base58).
Local Abbreviation recovered := (recovered_key libraries hashAlgorithms base58).

Lemma address_salt_length pub : length (salt_of pub) = 4%nat.
Proof.
  unfold address_salt. rewrite slice_length; [reflexivity |].
  rewrite (hash256_length _ _ _ HL). lia.
Qed.

Lemma stretch_halves pub P :
  length (slice 0 32 (stretch_of pub P)) = 32%nat
  /\ length (slice 32 64 (stretch_of pub P)) = 32%nat.
Proof.
  unfold stretch.
  split; (rewrite slice_length; [reflexivity |]);
    rewrite (scrypt_length _ _ _ HL); lia.
Qed.

Lemma xorBuf_length pub key P :
  length key = 32%nat ->
  length (lib_xor libraries (slice 0 32 (stretch_of pub P)) key) = 32%nat.
Proof.
  intros Hk. destruct (stretch_halves pub P) as [H1 _].
  rewrite (xor_length _ _ _ HL); congruence.
Qed.

Lemma cipherText_length pub key P :
  length key = 32%nat -> length (cipher_of pub key P) = 32%nat.
Proof.
  intros Hk. unfold cipherText_of. cbv zeta.
  destruct (stretch_halves pub P) as [_ H2].
  rewrite (cipher_length _ _ _ HL); rewrite ?xorBuf_length; auto.
  exists 2%nat. reflexivity.
Qed.

Lemma encryptRaw_outcome key c P pub :
  length key = 32%nat ->
  lib_fromPrivateKeyWithAlgorithm libraries key c = inr pub ->
  outcome (encryptRaw libraries hashAlgorithms base58 key c P)
  = inr (record_of pub key c P).
Proof.
  intros Hk Hpub. unfold encryptRaw. rewrite Hk.
  change (negb (32 =? 32)%nat) with false. cbv iota.
  rewrite (getAddressPrivate_returns libraries hashAlgorithms base58 key c
             pub Hpub).
  simpl. rewrite <- (scrypt_utf8 _ _ _ HL).
  f_equal. apply record_layout.
  - apply (allocUnsafe_length _ _ _ HL).
  - apply address_salt_length.
  - apply (cipherText_length pub key P Hk).
Qed.

Lemma direct_record_length pub key c P :
  length key = 32%nat -> length (record_of pub key c P) = 39%nat.
Proof.
  intros Hk. unfold direct_record.
  rewrite !length_app, address_salt_length, cipherText_length by exact Hk.
  reflexivity.
Qed.

Lemma direct_record_salt pub key c P :
  slice 3 7 (record_of pub key c P) = salt_of pub.
Proof.
  unfold direct_record, slice. simpl.
  apply take_app_length'. symmetry. apply address_salt_length.
Qed.

Lemma direct_record_cipherText pub key c P :
  length key = 32%nat ->
  slice 7 (7 + 32) (record_of pub key c P) = cipher_of pub key P.
Proof.
  intros Hk. unfold direct_record, slice. simpl.
  pose proof (address_salt_length pub) as Hs.
  destruct (salt_of pub) as [|s0 [|s1 [|s2 [|s3 [|s4 s]]]]];
    try discriminate Hs.
  simpl. apply take_ge. rewrite cipherText_length by exact Hk. lia.
Qed.

(** What [decryptRaw] does with a record written by [encryptRaw]. *)
Lemma decryptRaw_direct_record pub key c P1 P2 :
  length key = 32%nat ->
  outcome (decryptRaw libraries hashAlgorithms base58 (record_of pub key c P1)
             P2)
  = match lib_fromPrivateKeyWithAlgorithm libraries
            (recovered pub key P1 P2) c with
    | inl message => inl (JsError message)
    | inr pub' =>
        if decide (salt_of pub = salt_of pub')
        then inr {| privateKey := recovered pub key P1 P2; compressed := c |}
        else inl (AssertionError "deepEqual")
    end.
Proof.
  intros Hk.
  assert (Hflag : readUInt8 (record_of pub key c P1) 2
                  = mret (if c then 0xe0 else 0xc0))
    by (destruct c; reflexivity).
  destruct (direct_path_run libraries hashAlgorithms base58
              (record_of pub key c P1) P2 (if c then 0xe0 else 0xc0)
              (direct_record_length pub key c P1 Hk) eq_refl eq_refl Hflag)
    as [_ Ho].
  { destruct c; [left | right]; reflexivity. }
  cbv zeta in Ho. rewrite Ho.
  rewrite (direct_record_salt pub key c P1).
  rewrite (direct_record_cipherText pub key c P1 Hk).
  assert (Hc : ((if c then 224 else 192) =? 224) = c)
    by (destruct c; reflexivity).
  rewrite Hc. reflexivity.
Qed.

Lemma recovered_same pub key P :
  length key = 32%nat -> recovered pub key P P = key.
Proof.
  intros Hk. unfold recovered_key, cipherText_of. cbv zeta.
  destruct (stretch_halves pub P) as [H1 H2].
  rewrite (decipher_cipher _ _ _ HL).
  - apply (xor_involutive _ _ _ HL). congruence.
  - exact H2.
  - rewrite xorBuf_length by exact Hk. exists 2%nat. reflexivity.
Qed.

Lemma encrypt_outcome key c P pub :
  length key = 32%nat ->
  lib_fromPrivateKeyWithAlgorithm libraries key c = inr pub ->
  outcome (encrypt libraries hashAlgorithms base58 key c P)
  = inr (b58_encodeCheck base58 (record_of pub key c P)).
Proof.
  intros Hk Hpub. unfold encrypt.
  erewrite outcome_bind_inr by (apply encryptRaw_outcome; eassumption).
  reflexivity.
Qed.

(** Every string that [encrypt] returns is the encoding of a record. *)
Lemma encrypt_returned key c P s :
  outcome (encrypt libraries hashAlgorithms base58 key c P) = inr s ->
  length key = 32%nat
  /\ exists pub,
      lib_fromPrivateKeyWithAlgorithm libraries key c = inr pub
      /\ s = b58_encodeCheck base58 (record_of pub key c P).
Proof.
  intros Hs.
  destruct (Nat.eq_dec (length key) 32%nat) as [Hk | Hk].
  2: { unfold encrypt, encryptRaw in Hs. apply Nat.eqb_neq in Hk.
       rewrite Hk in Hs. discriminate Hs. }
  split; [exact Hk |].
  destruct (lib_fromPrivateKeyWithAlgorithm libraries key c)
    as [message | pub] eqn:Hpub.
  - unfold encrypt in Hs.
    rewrite (encryptRaw_throws libraries hashAlgorithms base58 key c P
               message Hk Hpub) in Hs.
    discriminate Hs.
  - exists pub. split; [reflexivity |].
    rewrite (encrypt_outcome key c P pub Hk Hpub) in Hs.
    injection Hs as <-. reflexivity.
Qed.

Lemma decrypt_encoded buffer P :
  outcome (decrypt libraries hashAlgorithms base58
             (b58_encodeCheck base58 buffer) P)
  = outcome (decryptRaw libraries hashAlgorithms base58 buffer P).
Proof.
  unfold decrypt.
  rewrite (outcome_bind_inr _ _ (Some buffer)); [reflexivity |].
  unfold decodeCheck, outcome. simpl.
  apply (decodeCheck_encodeCheck _ _ _ HL).
Qed.

Lemma round_trip_outcome key c P pub :
  length key = 32%nat ->
  lib_fromPrivateKeyWithAlgorithm libraries key c = inr pub ->
  outcome (decrypt libraries hashAlgorithms base58
             (b58_encodeCheck base58 (record_of pub key c P)) P)
  = inr {| privateKey := key; compressed := c |}.
Proof.
  intros Hk Hpub.
  rewrite decrypt_encoded.
  rewrite (decryptRaw_direct_record pub key c P P Hk).
  rewrite (recovered_same pub key P Hk), Hpub.
  destruct (decide _) as [_ | Hne]; [reflexivity | contradiction].
Qed.

End DirectMode.

(** ** The executable instance obeys the laws *)

Lemma byte_xor_involutive (a b : byte) : byte_xor a (byte_xor a b) = b.
Proof.
  unfold byte_xor.
  destruct (Byte.to_bits a) as (a0 & a1 & a2 & a3 & a4 & a5 & a6 & a7).
  rewrite <- (Byte.of_bits_to_bits b) at 2.
  destruct (Byte.to_bits b) as (b0 & b1 & b2 & b3 & b4 & b5 & b6 & b7).
  rewrite Byte.to_bits_of_bits.
  rewrite <- !Bool.xorb_assoc, !Bool.xorb_nilpotent, !Bool.xorb_false_l.
  reflexivity.
Qed.

Lemma zip_xor_involutive (a b : Buffer) :
  length a = length b ->
  zip_with byte_xor a (zip_with byte_xor a b) = b.
Proof.
  revert b. induction a as [|x a IH]; intros [|y b] H; try discriminate H.
  - reflexivity.
  - simpl. rewrite byte_xor_involutive, IH; [reflexivity |].
    simpl in H. lia.
Qed.

Lemma map_xor_involutive (k : byte) (data : Buffer) :
  map (byte_xor k) (map (byte_xor k) data) = data.
Proof.
  induction data as [|x data IH]; simpl.
  - reflexivity.
  - rewrite byte_xor_involutive, IH. reflexivity.
Qed.

Lemma sample_pad_length (n : nat) (b : Buffer) : length (sample_pad n b) = n.
Proof.
  unfold sample_pad. rewrite length_take, length_app, repeat_length. lia.
Qed.

Lemma sample_laws :
  CollaboratorLaws sample_libraries sample_hashAlgorithms sample_base58.
Proof.
  constructor; simpl.
  - reflexivity.
  - intros. apply sample_pad_length.
  - intros a b H. rewrite length_zip_with. lia.
  - apply zip_xor_involutive.
  - intros. apply length_map.
  - intros. apply map_xor_involutive.
  - intros. apply sample_pad_length.
  - intros. apply repeat_length.
  - intros. rewrite list_byte_of_string_of_list_byte. reflexivity.
Qed.

(** ** The BIP38 codec *)

Section Codec.

Context (libraries : Libraries) (hashAlgorithms : HashAlgorithms)
        (base58 : Base58).
Context (HL : CollaboratorLaws libraries hashAlgorithms base58).

(** C1, amended: for every 32-byte private key from which the public key
    can be derived (a valid scalar of the curve), compression flag and
    passphrase, [encrypt] returns a string and [decrypt] of that string
    under the same passphrase returns exactly the key and the flag, without
    error. *)
Theorem bip38_round_trip (K : Buffer) (c : bool) (P : string)
    (publicKey : Buffer) :
  length K = 32%nat ->
  lib_fromPrivateKeyWithAlgorithm libraries K c = inr publicKey ->
  exists s,
    outcome (encrypt libraries hashAlgorithms base58 K c P) = inr s
    /\ outcome (decrypt libraries hashAlgorithms base58 s P)
       = inr {| privateKey := K; compressed := c |}.
Proof.
  intros HK Hpub. eexists. split.
  - apply (encrypt_outcome _ _ _ HL K c P publicKey HK Hpub).
  - apply (round_trip_outcome _ _ _ HL K c P publicKey HK Hpub).
Qed.


End Codec.

(** C1, amended, on the executable instance. *)
Lemma bip38_round_trip_witness :
  length sample_key = 32%nat
  /\ exists s,
      outcome (encrypt sample_libraries sample_hashAlgorithms sample_base58
                 sample_key true "TestingOneTwoThree") = inr s
      /\ outcome (decrypt sample_libraries sample_hashAlgorithms sample_base58
                    s "TestingOneTwoThree")
         = inr {| privateKey := sample_key; compressed := true |}.
Proof.
  split; [reflexivity |].
  apply (bip38_round_trip _ _ _ sample_laws sample_key true
           "TestingOneTwoThree" (x02 :: sample_key)).
  - reflexivity.
  - vm_compute. reflexivity.
Defined.

(** C1 as worded fails on the 32-byte key of zeros: it is no scalar of the
    curve, the key derivation inside [getAddressPrivate] throws, and
    [encrypt] ends in that error instead of a string. *)
Lemma round_trip_counterexample :
  length zero_key = 32%nat
  /\ encrypt sample_libraries sample_hashAlgorithms sample_base58
       zero_key true "TestingOneTwoThree"
     = ([EvPublicKey zero_key true], inl (JsError "Invalid private key."))
  /\ ~ (exists s,
          outcome (encrypt sample_libraries sample_hashAlgorithms
                     sample_base58 zero_key true "TestingOneTwoThree")
          = inr s
          /\ outcome (decrypt sample_libraries sample_hashAlgorithms
                        sample_base58 s "TestingOneTwoThree")
             = inr {| privateKey := zero_key; compressed := true |}).
Proof.
  split; [reflexivity |]. split; [vm_compute; reflexivity |].
  intros (s & Hs & _). vm_compute in Hs. discriminate Hs.
Qed.



Section KeyLength.

Context (libraries : Libraries) (hashAlgorithms : HashAlgorithms)
        (base58 : Base58).

Lemma encrypt_returns (K : Buffer) (c : bool) (P : string)
    (publicKey : Buffer) :
  length K = 32%nat ->
  lib_fromPrivateKeyWithAlgorithm libraries K c = inr publicKey ->
  exists s, outcome (encrypt libraries hashAlgorithms base58 K c P) = inr s.
Proof.
  intros HK Hpub. unfold encrypt, encryptRaw. rewrite HK.
  change (negb (32 =? 32)%nat) with false. cbv iota.
  rewrite (getAddressPrivate_returns libraries hashAlgorithms base58 K c
             publicKey Hpub).
  eexists. simpl. reflexivity.
Qed.

Lemma encrypt_throws (K : Buffer) (c : bool) (P : string)
    (message : string) :
  length K = 32%nat ->
  lib_fromPrivateKeyWithAlgorithm libraries K c = inl message ->
  encrypt libraries hashAlgorithms base58 K c P
  = ([EvPublicKey K c], inl (JsError message)).
Proof.
  intros HK Hpub. unfold encrypt.
  rewrite (encryptRaw_throws libraries hashAlgorithms base58 K c P message
             HK Hpub).
  reflexivity.
Qed.

(** C5: [encrypt] fails with [PrivateKeyLengthError] exactly when the key
    is not 32 bytes long; the error then reaches the caller as the outcome
    of [encrypt] itself, carrying the expected and the actual length, and
    it is raised on an empty trace: no collaborator was called.  With a
    32-byte key the length check passes: [encrypt] returns when the public
    key can be derived, and otherwise ends in the error thrown by the key
    derivation, its first collaborator call. *)
Theorem encrypt_key_length (K : Buffer) (c : bool) (P : string) :
  let run := encrypt libraries hashAlgorithms base58 K c P in
  ((exists expected actual,
       outcome run = inl (PrivateKeyLengthError expected actual))
   <-> length K <> 32%nat)
  /\ (length K <> 32%nat ->
      run = ([], inl (PrivateKeyLengthError 32 (Z.of_nat (length K))))
      /\ encryptRaw libraries hashAlgorithms base58 K c P
         = ([], inl (PrivateKeyLengthError 32 (Z.of_nat (length K)))))
  /\ (length K = 32%nat ->
      (forall publicKey,
          lib_fromPrivateKeyWithAlgorithm libraries K c = inr publicKey ->
          exists s, outcome run = inr s)
      /\ (forall message,
            lib_fromPrivateKeyWithAlgorithm libraries K c = inl message ->
            run = ([EvPublicKey K c], inl (JsError message)))).
Proof.
  intros run.
  assert (Hbad : length K <> 32%nat ->
            run = ([], inl (PrivateKeyLengthError 32 (Z.of_nat (length K))))
            /\ encryptRaw libraries hashAlgorithms base58 K c P
               = ([], inl (PrivateKeyLengthError 32 (Z.of_nat (length K))))).
  { intros Hlen. subst run. unfold encrypt, encryptRaw.
    apply Nat.eqb_neq in Hlen. rewrite Hlen. split; reflexivity. }
  split; [| split; [exact Hbad |]].
  - split.
    + intros (expected & actual & Herr) Hlen. subst run.
      destruct (lib_fromPrivateKeyWithAlgorithm libraries K c)
        as [message | publicKey] eqn:Hpub.
      * rewrite (encrypt_throws K c P message Hlen Hpub) in Herr.
        discriminate Herr.
      * destruct (encrypt_returns K c P publicKey Hlen Hpub) as [s Hs].
        rewrite Hs in Herr. discriminate Herr.
    + intros Hlen. destruct (Hbad Hlen) as [Hrun _].
      exists 32, (Z.of_nat (length K)). rewrite Hrun. reflexivity.
  - intros Hlen. split.
    + intros publicKey Hpub. apply (encrypt_returns K c P publicKey Hlen Hpub).
    + intros message Hpub. apply (encrypt_throws K c P message Hlen Hpub).
Qed.

End KeyLength.

Section Verify.

Context (libraries : Libraries) (hashAlgorithms : HashAlgorithms)
        (base58 : Base58).

(** [verify] calls [decodeCheck] and nothing else, and its answer is the
    structural check applied to the decoded payload. *)
Lemma verify_run (s : string) :
  verify base58 s
  = ([EvDecodeCheck s],
     inr (match b58_decodeCheck base58 s with
          | inr (Some decoded) => header_accepted decoded
          | _ => false
          end)).
Proof.
  unfold verify, decodeCheck.
  destruct (b58_decodeCheck base58 s) as [e | [decoded |]];
    [reflexivity | | reflexivity].
  destruct decoded as [|b0 [|b1 [|b2 rest]]]; try reflexivity.
  rewrite bind_returned.
  unfold header_accepted, readUInt8.
  destruct (length (b0 :: b1 :: b2 :: rest) =? 39)%nat; [| reflexivity].
  change ((b0 :: b1 :: b2 :: rest) !! 0%nat) with (Some b0).
  change ((b0 :: b1 :: b2 :: rest) !! 1%nat) with (Some b1).
  change ((b0 :: b1 :: b2 :: rest) !! 2%nat) with (Some b2).
  change (negb true) with false. cbv beta iota.
  rewrite bind_ret_l.
  destruct (byte_to_Z b0 =? 1); [| reflexivity].
  change (negb true) with false. cbv beta iota.
  rewrite !bind_ret_l.
  generalize (byte_to_Z b1) (byte_to_Z b2). intros type flag.
  generalize (Z.land flag (Z.lnot 36)). intros masked.
  destruct (Z.eqb_spec type 66), (Z.eqb_spec type 67), (flag =? 192),
    (flag =? 224), (masked =? 0); try reflexivity; exfalso; lia.
Qed.

Lemma header_accepted_length (decoded : Buffer) :
  length decoded <> 39%nat -> header_accepted decoded = false.
Proof.
  intros Hlen. apply Nat.eqb_neq in Hlen.
  destruct decoded as [|b0 [|b1 [|b2 rest]]]; try reflexivity.
  unfold header_accepted. rewrite Hlen. reflexivity.
Qed.

Lemma header_accepted_bytes (decoded : Buffer) (prefix type flag : Z) :
  readUInt8 decoded 0 = mret prefix ->
  readUInt8 decoded 1 = mret type ->
  readUInt8 decoded 2 = mret flag ->
  prefix <> 0x01
  \/ (type <> 0x42 /\ type <> 0x43)
  \/ (type = 0x42 /\ flag <> 0xc0 /\ flag <> 0xe0)
  \/ (type = 0x43 /\ Z.land flag (Z.lnot 0x24) <> 0) ->
  header_accepted decoded = false.
Proof.
  intros H0 H1 H2 Hbad.
  destruct decoded as [|b0 [|b1 [|b2 rest]]]; try reflexivity.
  unfold readUInt8 in H0, H1, H2.
  change ((b0 :: b1 :: b2 :: rest) !! 0%nat) with (Some b0) in H0.
  change ((b0 :: b1 :: b2 :: rest) !! 1%nat) with (Some b1) in H1.
  change ((b0 :: b1 :: b2 :: rest) !! 2%nat) with (Some b2) in H2.
  injection H0 as H0. injection H1 as H1. injection H2 as H2.
  unfold header_accepted. rewrite H0, H1, H2.
  destruct (length (b0 :: b1 :: b2 :: rest) =? 39)%nat; [| reflexivity].
  destruct (Z.eqb_spec prefix 1), (Z.eqb_spec type 66),
    (Z.eqb_spec type 67), (Z.eqb_spec flag 192), (Z.eqb_spec flag 224),
    (Z.eqb_spec (Z.land flag (Z.lnot 36)) 0);
    try reflexivity; exfalso; lia.
Qed.

Context (HL : CollaboratorLaws libraries hashAlgorithms base58).

(** C2: [verify] returns true on every string that [encrypt] produces
    (and [encrypt] produces one for every 32-byte key whose public key can
    be derived); it returns false whenever the decoded payload has a length
    other than 39, a first byte other than 0x01, a type byte outside 0x42
    and 0x43, a flag other than 0xC0 and 0xE0 under type 0x42, or a flag
    with a bit outside 0x24 under type 0x43; and its only collaborator call
    is [decodeCheck], its answer being the structural check of the decoded
    payload. *)
Theorem verify_structural :
  (forall K c P s,
     outcome (encrypt libraries hashAlgorithms base58 K c P) = inr s ->
     outcome (verify base58 s) = inr true)
  /\ (forall K c P publicKey,
        length K = 32%nat ->
        lib_fromPrivateKeyWithAlgorithm libraries K c = inr publicKey ->
        exists s,
          outcome (encrypt libraries hashAlgorithms base58 K c P) = inr s
          /\ outcome (verify base58 s) = inr true)
  /\ (forall s decoded,
        b58_decodeCheck base58 s = inr (Some decoded) ->
        (length decoded <> 39%nat -> outcome (verify base58 s) = inr false)
        /\ (forall prefix type flag,
              readUInt8 decoded 0 = mret prefix ->
              readUInt8 decoded 1 = mret type ->
              readUInt8 decoded 2 = mret flag ->
              prefix <> 0x01
              \/ (type <> 0x42 /\ type <> 0x43)
              \/ (type = 0x42 /\ flag <> 0xc0 /\ flag <> 0xe0)
              \/ (type = 0x43 /\ Z.land flag (Z.lnot 0x24) <> 0) ->
              outcome (verify base58 s) = inr false))
  /\ (forall s,
        verify base58 s
        = ([EvDecodeCheck s],
           inr (match b58_decodeCheck base58 s with
                | inr (Some decoded) => header_accepted decoded
                | _ => false
                end))).
Proof.
  assert (Hrec : forall pub K c P,
            length K = 32%nat ->
            outcome (verify base58
                       (b58_encodeCheck base58
                          (direct_record libraries hashAlgorithms base58
                             pub K c P))) = inr true).
  { intros pub K c P HK. rewrite verify_run. unfold outcome. simpl snd.
    rewrite (decodeCheck_encodeCheck _ _ _ HL).
    unfold header_accepted, direct_record.
    change (length ([x01; x42; if c then xe0 else xc0]
              ++ address_salt hashAlgorithms base58 pub
              ++ cipherText_of libraries hashAlgorithms base58 pub K P))
      with (length (direct_record libraries hashAlgorithms base58 pub K c P)).
    rewrite (direct_record_length _ _ _ HL pub K c P HK).
    destruct c; reflexivity. }
  split; [| split; [| split; [| apply verify_run]]].
  - intros K c P s Hs.
    destruct (encrypt_returned _ _ _ HL K c P s Hs) as (HK & pub & _ & ->).
    apply Hrec, HK.
  - intros K c P publicKey HK Hpub. eexists. split.
    + apply (encrypt_outcome _ _ _ HL K c P publicKey HK Hpub).
    + apply Hrec, HK.
  - intros s decoded Hs. split.
    + intros Hlen. rewrite verify_run, Hs.
      unfold outcome. simpl. f_equal. apply header_accepted_length, Hlen.
    + intros prefix type flag H0 H1 H2 Hbad. rewrite verify_run, Hs.
      unfold outcome. simpl. f_equal.
      apply (header_accepted_bytes decoded prefix type flag); assumption.
Qed.

End Verify.

(** C2 on the executable instance. *)
Lemma verify_structural_witness :
  length sample_key = 32%nat
  /\ exists s,
      outcome (encrypt sample_libraries sample_hashAlgorithms sample_base58
                 sample_key true "TestingOneTwoThree") = inr s
      /\ outcome (verify sample_base58 s) = inr true.
Proof.
  split; [reflexivity |].
  apply (proj1 (proj2 (verify_structural _ _ _ sample_laws))
           sample_key true "TestingOneTwoThree" (x02 :: sample_key)).
  - reflexivity.
  - vm_compute. reflexivity.
Defined.

(** ** The EC-multiply path *)

Section ECMultiply.

Context (libraries : Libraries) (hashAlgorithms : HashAlgorithms)
        (base58 : Base58).

Lemma decryptECMult_rejects (buffer : Buffer) (passphrase : string)
    (flag : Z) :
  readUInt8 (drop 1 buffer) 1 = mret flag ->
  Z.land flag 0x24 <> flag ->
  decryptECMult libraries hashAlgorithms buffer passphrase
  = ([], inl (AssertionError "Invalid private key.")).
Proof.
  intros Hflag Hmask. unfold decryptECMult. cbv zeta.
  rewrite Hflag, bind_ret_l. unfold assert_strictEqual.
  apply Z.eqb_neq in Hmask. rewrite Hmask. reflexivity.
Qed.

(** The run of [decryptECMult] on a flag that passes the assertion, when
    the public key of the pass factor can be derived. *)
Lemma decryptECMult_returns (buffer : Buffer) (passphrase : string)
    (flag : Z) (publicKey : Buffer) :
  readUInt8 (drop 1 buffer) 1 = mret flag ->
  Z.land flag 0x24 = flag ->
  let hasLotSeq := negb (Z.land flag 0x04 =? 0) in
  let stripped := drop 1 buffer in
  lib_fromPrivateKeyWithAlgorithm libraries
    (ec_passFactor libraries hashAlgorithms hasLotSeq stripped passphrase)
    true = inr publicKey ->
  decryptECMult libraries hashAlgorithms buffer passphrase
  = (ec_trace_prefix libraries hashAlgorithms hasLotSeq stripped passphrase
     ++ ec_trace_suffix libraries hashAlgorithms hasLotSeq stripped
          passphrase publicKey,
     inr {| privateKey :=
              ec_privateKey libraries hashAlgorithms hasLotSeq stripped
                passphrase publicKey;
            compressed := negb (Z.land flag 0x20 =? 0) |}).
Proof.
  intros Hflag Hmask hasLotSeq stripped Hpub. subst hasLotSeq stripped.
  unfold decryptECMult. cbv zeta.
  rewrite Hflag, bind_ret_l. unfold assert_strictEqual.
  rewrite Hmask, Z.eqb_refl, bind_ret_l.
  unfold scryptSync, hash256, aes_decipher, xor, privateKeyTweakMul,
    Buffer_concat.
  cbn [concat]. rewrite !app_nil_r.
  revert Hpub.
  destruct (negb (Z.land flag 4 =? 0)); intros Hpub; apply run_eq.
  - do 2 (rewrite trace_bind_call; cbv beta).
    match goal with
    | |- context [getPublicKey libraries ?k true] =>
        rewrite (getPublicKey_returns libraries k true publicKey Hpub)
    end.
    repeat (rewrite trace_bind_call; cbv beta). reflexivity.
  - do 2 (rewrite outcome_bind_call; cbv beta).
    match goal with
    | |- context [getPublicKey libraries ?k true] =>
        rewrite (getPublicKey_returns libraries k true publicKey Hpub)
    end.
    repeat (rewrite outcome_bind_call; cbv beta). reflexivity.
  - rewrite trace_bind_call. cbv beta. rewrite bind_ret_l.
    match goal with
    | |- context [getPublicKey libraries ?k true] =>
        rewrite (getPublicKey_returns libraries k true publicKey Hpub)
    end.
    repeat (rewrite trace_bind_call; cbv beta). reflexivity.
  - rewrite outcome_bind_call. cbv beta. rewrite bind_ret_l.
    match goal with
    | |- context [getPublicKey libraries ?k true] =>
        rewrite (getPublicKey_returns libraries k true publicKey Hpub)
    end.
    repeat (rewrite outcome_bind_call; cbv beta). reflexivity.
Qed.

(** The same run when the key derivation of the pass factor throws. *)
Lemma decryptECMult_throws (buffer : Buffer) (passphrase : string)
    (flag : Z) (message : string) :
  readUInt8 (drop 1 buffer) 1 = mret flag ->
  Z.land flag 0x24 = flag ->
  let hasLotSeq := negb (Z.land flag 0x04 =? 0) in
  let stripped := drop 1 buffer in
  lib_fromPrivateKeyWithAlgorithm libraries
    (ec_passFactor libraries hashAlgorithms hasLotSeq stripped passphrase)
    true = inl message ->
  decryptECMult libraries hashAlgorithms buffer passphrase
  = (ec_trace_prefix libraries hashAlgorithms hasLotSeq stripped passphrase,
     inl (JsError message)).
Proof.
  intros Hflag Hmask hasLotSeq stripped Hpub. subst hasLotSeq stripped.
  unfold decryptECMult. cbv zeta.
  rewrite Hflag, bind_ret_l. unfold assert_strictEqual.
  rewrite Hmask, Z.eqb_refl, bind_ret_l.
  unfold scryptSync, hash256, Buffer_concat.
  cbn [concat]. rewrite !app_nil_r.
  revert Hpub.
  destruct (negb (Z.land flag 4 =? 0)); intros Hpub; apply run_eq.
  - do 2 (rewrite trace_bind_call; cbv beta).
    match goal with
    | |- context [getPublicKey libraries ?k true] =>
        rewrite (getPublicKey_throws libraries k true message Hpub)
    end.
    reflexivity.
  - do 2 (rewrite outcome_bind_call; cbv beta).
    match goal with
    | |- context [getPublicKey libraries ?k true] =>
        rewrite (getPublicKey_throws libraries k true message Hpub)
    end.
    reflexivity.
  - rewrite trace_bind_call. cbv beta. rewrite bind_ret_l.
    match goal with
    | |- context [getPublicKey libraries ?k true] =>
        rewrite (getPublicKey_throws libraries k true message Hpub)
    end.
    reflexivity.
  - rewrite outcome_bind_call. cbv beta. rewrite bind_ret_l.
    match goal with
    | |- context [getPublicKey libraries ?k true] =>
        rewrite (getPublicKey_throws libraries k true message Hpub)
    end.
    reflexivity.
Qed.

(** C6: in [decryptECMult], with [flag] the byte read at index 1 of the
    stripped buffer: a flag with a bit outside 0x24 ends the run in the
    assertion failure before any collaborator is called; otherwise
    [compressed] is [(flag & 0x20) <> 0], the first scrypt call is salted
    with the first 4 bytes of ownerEntropy when [(flag & 0x04) <> 0] and
    with all of ownerEntropy otherwise, and the pass factor handed to
    [getPublicKey] and to [privateKeyTweakMul] is
    hash256(preFactor ++ ownerEntropy) with lot/sequence, preFactor
    without.  The result is returned when the public key of the pass factor
    can be derived; when that derivation throws, its error ends the run. *)
Theorem decryptECMult_flag_and_factors (buffer : Buffer)
    (passphrase : string) (flag : Z) :
  readUInt8 (drop 1 buffer) 1 = mret flag ->
  let run := decryptECMult libraries hashAlgorithms buffer passphrase in
  let compressed := negb (Z.land flag 0x20 =? 0) in
  let hasLotSeq := negb (Z.land flag 0x04 =? 0) in
  let ownerEntropy := slice 6 14 (drop 1 buffer) in
  let ownerSalt :=
    if hasLotSeq then take 4 ownerEntropy else ownerEntropy in
  let preFactor :=
    lib_scryptSync libraries (BLString passphrase) ownerSalt 32
      SCRYPT_PARAMS in
  let passFactor :=
    if hasLotSeq
    then ha_hash256 hashAlgorithms (BLBuffer (preFactor ++ ownerEntropy))
    else preFactor in
  (Z.land flag 0x24 <> flag ->
     run = ([], inl (AssertionError "Invalid private key.")))
  /\ (Z.land flag 0x24 = flag ->
      (exists rest,
          trace_of run
          = EvScrypt (BLString passphrase) ownerSalt 32 SCRYPT_PARAMS :: rest
          /\ In (EvPublicKey passFactor true) rest)
      /\ (forall publicKey,
            lib_fromPrivateKeyWithAlgorithm libraries passFactor true
            = inr publicKey ->
            exists seedB,
              In (EvTweakMul (ha_hash256 hashAlgorithms (BLBuffer seedB))
                    passFactor) (trace_of run)
              /\ outcome run
                 = inr {| privateKey :=
                            lib_privateKeyTweakMul libraries
                              (ha_hash256 hashAlgorithms (BLBuffer seedB))
                              passFactor;
                          compressed := compressed |})
      /\ (forall message,
            lib_fromPrivateKeyWithAlgorithm libraries passFactor true
            = inl message ->
            outcome run = inl (JsError message))).
Proof.
  intros Hflag. cbv zeta. split.
  - apply decryptECMult_rejects, Hflag.
  - intros Hmask.
    change (take 4) with (slice 0 4).
    destruct (lib_fromPrivateKeyWithAlgorithm libraries
                (ec_passFactor libraries hashAlgorithms
                   (negb (Z.land flag 4 =? 0)) (drop 1 buffer) passphrase)
                true) as [message | publicKey] eqn:Hpub.
    + rewrite (decryptECMult_throws buffer passphrase flag message Hflag
                 Hmask Hpub).
      unfold ec_passFactor, ec_preFactor, ec_ownerSalt, ec_ownerEntropy
        in Hpub.
      cbv zeta in Hpub. rewrite Hpub.
      split; [| split].
      * eexists. split; [reflexivity |].
        apply in_or_app. right. left. reflexivity.
      * intros publicKey H. discriminate H.
      * intros msg H. injection H as <-. reflexivity.
    + rewrite (decryptECMult_returns buffer passphrase flag publicKey Hflag
                 Hmask Hpub).
      unfold ec_passFactor, ec_preFactor, ec_ownerSalt, ec_ownerEntropy
        in Hpub.
      cbv zeta in Hpub. rewrite Hpub.
      split; [| split].
      * eexists. split; [reflexivity |].
        apply in_or_app. left. apply in_or_app. right. left. reflexivity.
      * intros pub H. injection H as <-.
        exists (ec_seedB libraries (drop 1 buffer) publicKey).
        split; [| reflexivity].
        apply (in_or_app
                 (ec_trace_prefix libraries hashAlgorithms
                    (negb (Z.land flag 4 =? 0)) (drop 1 buffer) passphrase)
                 (ec_trace_suffix libraries hashAlgorithms
                    (negb (Z.land flag 4 =? 0)) (drop 1 buffer) passphrase
                    publicKey)).
        right. unfold ec_trace_suffix. cbv zeta. simpl. tauto.
      * intros msg H. discriminate H.
Qed.


End ECMultiply.

(** C6 on the executable instance: flag 0x24, so the salt of the first
    scrypt call is the first four bytes of the owner entropy. *)
Lemma decryptECMult_flag_and_factors_witness :
  readUInt8 (drop 1 sample_ec_record) 1 = mret 0x24
  /\ exists rest,
      trace_of (decryptECMult sample_libraries sample_hashAlgorithms
                  sample_ec_record "pw")
      = EvScrypt (BLString "pw") (repeat x07 4) 32 SCRYPT_PARAMS :: rest.
Proof.
  split; [reflexivity |].
  destruct (decryptECMult_flag_and_factors sample_libraries
              sample_hashAlgorithms sample_ec_record "pw" 0x24 eq_refl)
    as [_ H].
  destruct (H eq_refl) as [[rest [Ht _]] _].
  exists rest. exact Ht.
Defined.


(** ** The scrypt calls of every run *)

Section ScryptCalls.

Context (libraries : Libraries) (hashAlgorithms : HashAlgorithms)
        (base58 : Base58).

Lemma encrypt_trace (K : Buffer) (c : bool) (P : string) :
  List.filter is_scrypt
    (trace_of (encrypt libraries hashAlgorithms base58 K c P))
  = if (length K =? 32)%nat
    then match lib_fromPrivateKeyWithAlgorithm libraries K c with
         | inr publicKey =>
             [EvScrypt (BLBuffer (Buffer_from_utf8 P))
                (address_salt hashAlgorithms base58 publicKey) 64
                SCRYPT_PARAMS]
         | inl _ => []
         end
    else [].
Proof.
  destruct (Nat.eqb_spec (length K) 32) as [HK | HK].
  - destruct (lib_fromPrivateKeyWithAlgorithm libraries K c)
      as [message | publicKey] eqn:Hpub.
    + rewrite (encrypt_throws libraries hashAlgorithms base58 K c P message
                 HK Hpub).
      reflexivity.
    + unfold encrypt, encryptRaw. rewrite HK.
      change (negb (32 =? 32)%nat) with false. cbv iota.
      rewrite (getAddressPrivate_returns libraries hashAlgorithms base58 K c
                 publicKey Hpub).
      reflexivity.
  - unfold encrypt, encryptRaw. apply Nat.eqb_neq in HK. rewrite HK.
    reflexivity.
Qed.

Lemma address_trace_no_scrypt (key : Buffer) (c : bool) :
  List.filter is_scrypt
    (trace_of (getAddressPrivate libraries hashAlgorithms base58 key c)) = []
  /\ scrypt_params
       (trace_of (getAddressPrivate libraries hashAlgorithms base58 key c))
     = [].
Proof.
  destruct (lib_fromPrivateKeyWithAlgorithm libraries key c)
    as [message | publicKey] eqn:Hpub.
  - rewrite (getAddressPrivate_throws libraries hashAlgorithms base58 key c
               message Hpub).
    split; reflexivity.
  - rewrite (getAddressPrivate_returns libraries hashAlgorithms base58 key c
               publicKey Hpub).
    split; reflexivity.
Qed.

Lemma direct_trace (buffer : Buffer) (passphrase : string) (flag : Z) :
  length buffer = 39%nat ->
  readUInt8 buffer 0 = mret 0x01 ->
  readUInt8 buffer 1 = mret 0x42 ->
  readUInt8 buffer 2 = mret flag ->
  flag = 0xe0 \/ flag = 0xc0 ->
  List.filter is_scrypt
    (trace_of (decryptRaw libraries hashAlgorithms base58 buffer passphrase))
  = [EvScrypt (BLString passphrase) (slice 3 7 buffer) 64 SCRYPT_PARAMS]
  /\ scrypt_params
       (trace_of (decryptRaw libraries hashAlgorithms base58 buffer
                    passphrase))
     = [SCRYPT_PARAMS].
Proof.
  intros Hlen H0 H1 H2 Hflag.
  destruct (direct_path_run libraries hashAlgorithms base58 buffer passphrase
              flag Hlen H0 H1 H2 Hflag) as [Ht _].
  cbv zeta in Ht. rewrite Ht. clear Ht.
  unfold scrypt_params.
  rewrite !List.filter_app, !omap_app.
  match goal with
  | |- context [getAddressPrivate libraries hashAlgorithms base58 ?k ?c] =>
      destruct (address_trace_no_scrypt k c) as [Ha Hb]
  end.
  unfold scrypt_params in Hb. rewrite Ha, Hb.
  destruct (lib_fromPrivateKeyWithAlgorithm libraries _ _); split; reflexivity.
Qed.

Lemma ecmult_trace (buffer : Buffer) (passphrase : string) (flag : Z) :
  readUInt8 (drop 1 buffer) 1 = mret flag ->
  Z.land flag 0x24 = flag ->
  let hasLotSeq := negb (Z.land flag 0x04 =? 0) in
  let addressHash := slice 2 6 (drop 1 buffer) in
  let ownerEntropy := slice 6 14 (drop 1 buffer) in
  let ownerSalt :=
    if hasLotSeq then take 4 ownerEntropy else ownerEntropy in
  let preFactor :=
    lib_scryptSync libraries (BLString passphrase) ownerSalt 32
      SCRYPT_PARAMS in
  let passFactor :=
    if hasLotSeq
    then ha_hash256 hashAlgorithms (BLBuffer (preFactor ++ ownerEntropy))
    else preFactor in
  let run := decryptECMult libraries hashAlgorithms buffer passphrase in
  List.filter is_scrypt (trace_of run)
  = EvScrypt (BLString passphrase) ownerSalt 32 SCRYPT_PARAMS
    :: match lib_fromPrivateKeyWithAlgorithm libraries passFactor true with
       | inr publicKey =>
           [EvScrypt (BLBuffer publicKey) (addressHash ++ ownerEntropy) 64
              SCRYPT_PARAMS_LIGHT]
       | inl _ => []
       end
  /\ scrypt_params (trace_of run)
     = SCRYPT_PARAMS
       :: match lib_fromPrivateKeyWithAlgorithm libraries passFactor true with
          | inr _ => [SCRYPT_PARAMS_LIGHT]
          | inl _ => []
          end.
Proof.
  intros Hflag Hmask. cbv zeta. change (take 4) with (slice 0 4).
  destruct (lib_fromPrivateKeyWithAlgorithm libraries
              (ec_passFactor libraries hashAlgorithms
                 (negb (Z.land flag 4 =? 0)) (drop 1 buffer) passphrase)
              true) as [message | publicKey] eqn:Hpub.
  - rewrite (decryptECMult_throws libraries hashAlgorithms buffer passphrase
               flag message Hflag Hmask Hpub).
    unfold ec_passFactor, ec_preFactor, ec_ownerSalt, ec_ownerEntropy in Hpub.
    cbv zeta in Hpub. rewrite Hpub.
    destruct (negb (Z.land flag 4 =? 0)); split; reflexivity.
  - rewrite (decryptECMult_returns libraries hashAlgorithms buffer passphrase
               flag publicKey Hflag Hmask Hpub).
    unfold ec_passFactor, ec_preFactor, ec_ownerSalt, ec_ownerEntropy in Hpub.
    cbv zeta in Hpub. rewrite Hpub.
    destruct (negb (Z.land flag 4 =? 0)); split; reflexivity.
Qed.

Lemma decryptRaw_scrypt_params (buffer : Buffer) (passphrase : string) :
  let ps :=
    scrypt_params
      (trace_of (decryptRaw libraries hashAlgorithms base58 buffer
                   passphrase)) in
  ps = [] \/ ps = [SCRYPT_PARAMS]
  \/ ps = [SCRYPT_PARAMS; SCRYPT_PARAMS_LIGHT].
Proof.
  cbv zeta.
  destruct (Nat.eq_dec (length buffer) 39%nat) as [Hlen | Hlen].
  2: { left. unfold decryptRaw. apply Nat.eqb_neq in Hlen.
       rewrite Hlen. reflexivity. }
  destruct (header_bytes buffer Hlen)
    as (prefix & type & flag & H0 & H1 & H2).
  destruct (Z.eqb_spec prefix 1) as [-> | Hp].
  2: { rewrite (decryptRaw_header libraries hashAlgorithms base58 buffer
                  passphrase prefix type flag Hlen H0 H1 H2).
       apply Z.eqb_neq in Hp. rewrite Hp. left. reflexivity. }
  destruct (Z.eqb_spec type 67) as [-> | H67].
  - rewrite (decryptRaw_header libraries hashAlgorithms base58 buffer
               passphrase 1 67 flag Hlen H0 H1 H2).
    change (negb (1 =? 1)) with false. change (67 =? 67) with true. cbv iota.
    assert (Hflag : readUInt8 (drop 1 buffer) 1 = mret flag).
    { unfold readUInt8 in *. rewrite lookup_drop. exact H2. }
    destruct (Z.eq_dec (Z.land flag 0x24) flag) as [Hmask | Hmask].
    + destruct (ecmult_trace buffer passphrase flag Hflag Hmask) as [_ Hps].
      cbv zeta in Hps. rewrite Hps.
      destruct (lib_fromPrivateKeyWithAlgorithm libraries _ _);
        [right; left | right; right]; reflexivity.
    + rewrite (decryptECMult_rejects libraries hashAlgorithms buffer
                 passphrase flag Hflag Hmask).
      left. reflexivity.
  - destruct (Z.eqb_spec type 66) as [-> | H66].
    2: { rewrite (decryptRaw_header libraries hashAlgorithms base58 buffer
                    passphrase 1 type flag Hlen H0 H1 H2).
         apply Z.eqb_neq in H67, H66. rewrite H67, H66.
         left. reflexivity. }
    destruct (Z.eq_dec flag 0xe0) as [He0 | He0];
      [| destruct (Z.eq_dec flag 0xc0) as [Hc0 | Hc0]].
    3: { rewrite (decryptRaw_header libraries hashAlgorithms base58 buffer
                    passphrase 1 66 flag Hlen H0 H1 H2).
         apply Z.eqb_neq in He0, Hc0. rewrite He0, Hc0.
         left. reflexivity. }
    all: right; left.
    all: apply (direct_trace buffer passphrase flag Hlen H0 H1 H2); tauto.
Qed.

(** C8: the standard set is (16384, 8, 8) and the light set (1024, 1, 1).
    [encrypt] stretches the passphrase once, with the standard set; the
    direct path of [decryptRaw] stretches it once, with the standard set;
    the EC-multiply path calls scrypt twice: for preFactor, salted with
    the owner salt, with the standard set, then for seedBPass, keyed with
    the public key of the pass factor, with the light set.  A run that the
    key derivation ends early makes only the calls it has reached.  No run
    of [encrypt], [decrypt] or [verify] makes any other scrypt call. *)
Theorem scrypt_parameter_sets :
  SCRYPT_PARAMS = {| scrypt_N := 16384; scrypt_r := 8; scrypt_p := 8 |}
  /\ SCRYPT_PARAMS_LIGHT = {| scrypt_N := 1024; scrypt_r := 1; scrypt_p := 1 |}
  /\ (forall K c P,
        List.filter is_scrypt
          (trace_of (encrypt libraries hashAlgorithms base58 K c P))
        = if (length K =? 32)%nat
          then match lib_fromPrivateKeyWithAlgorithm libraries K c with
               | inr publicKey =>
                   [EvScrypt (BLBuffer (Buffer_from_utf8 P))
                      (address_salt hashAlgorithms base58 publicKey) 64
                      SCRYPT_PARAMS]
               | inl _ => []
               end
          else [])
  /\ (forall buffer passphrase flag,
        length buffer = 39%nat ->
        readUInt8 buffer 0 = mret 0x01 ->
        readUInt8 buffer 1 = mret 0x42 ->
        readUInt8 buffer 2 = mret flag ->
        flag = 0xe0 \/ flag = 0xc0 ->
        List.filter is_scrypt
          (trace_of (decryptRaw libraries hashAlgorithms base58 buffer
                       passphrase))
        = [EvScrypt (BLString passphrase) (slice 3 7 buffer) 64
             SCRYPT_PARAMS])
  /\ (forall buffer passphrase flag,
        length buffer = 39%nat ->
        readUInt8 buffer 0 = mret 0x01 ->
        readUInt8 buffer 1 = mret 0x43 ->
        readUInt8 buffer 2 = mret flag ->
        Z.land flag 0x24 = flag ->
        let hasLotSeq := negb (Z.land flag 0x04 =? 0) in
        let addressHash := slice 2 6 (drop 1 buffer) in
        let ownerEntropy := slice 6 14 (drop 1 buffer) in
        let ownerSalt :=
          if hasLotSeq then take 4 ownerEntropy else ownerEntropy in
        let preFactor :=
          lib_scryptSync libraries (BLString passphrase) ownerSalt 32
            SCRYPT_PARAMS in
        let passFactor :=
          if hasLotSeq
          then ha_hash256 hashAlgorithms
                 (BLBuffer (preFactor ++ ownerEntropy))
          else preFactor in
        List.filter is_scrypt
          (trace_of (decryptRaw libraries hashAlgorithms base58 buffer
                       passphrase))
        = EvScrypt (BLString passphrase) ownerSalt 32 SCRYPT_PARAMS
          :: match lib_fromPrivateKeyWithAlgorithm libraries passFactor true
             with
             | inr publicKey =>
                 [EvScrypt (BLBuffer publicKey) (addressHash ++ ownerEntropy)
                    64 SCRYPT_PARAMS_LIGHT]
             | inl _ => []
             end)
  /\ (forall bip38 passphrase,
        let ps :=
          scrypt_params
            (trace_of (decrypt libraries hashAlgorithms base58 bip38
                         passphrase)) in
        ps = [] \/ ps = [SCRYPT_PARAMS]
        \/ ps = [SCRYPT_PARAMS; SCRYPT_PARAMS_LIGHT])
  /\ (forall bip38, scrypt_params (trace_of (verify base58 bip38)) = []).
Proof.
  split; [reflexivity |]. split; [reflexivity |].
  split; [apply encrypt_trace |].
  split; [intros buffer passphrase flag Hlen H0 H1 H2 Hflag;
          apply (direct_trace buffer passphrase flag Hlen H0 H1 H2 Hflag) |].
  split; [| split].
  - intros buffer passphrase flag Hlen H0 H1 H2 Hmask.
    rewrite (decryptRaw_header libraries hashAlgorithms base58 buffer
               passphrase 1 67 flag Hlen H0 H1 H2).
    change (negb (1 =? 1)) with false. change (67 =? 67) with true.
    cbv iota.
    assert (Hflag : readUInt8 (drop 1 buffer) 1 = mret flag).
    { unfold readUInt8 in *. rewrite lookup_drop. exact H2. }
    apply (ecmult_trace buffer passphrase flag Hflag Hmask).
  - intros bip38 passphrase. cbv zeta. unfold decrypt, decodeCheck.
    destruct (b58_decodeCheck base58 bip38) as [e | [buffer |]];
      [left; reflexivity | | left; reflexivity].
    rewrite bind_returned. unfold trace_of at 1. simpl fst.
    change (scrypt_params
              ([EvDecodeCheck bip38]
                 ++ trace_of (decryptRaw libraries hashAlgorithms base58
                                buffer passphrase)))
      with (scrypt_params
              (trace_of (decryptRaw libraries hashAlgorithms base58
                           buffer passphrase))).
    apply decryptRaw_scrypt_params.
  - intros bip38. rewrite (verify_run base58). reflexivity.
Qed.

End ScryptCalls.

(** ** The bootstrap of the transfer handler *)

Lemma bootstrap_step_at (repo : WalletRepository) (t : ReceivedTransaction)
    (addr : string) :
  bootstrap_step repo t addr
  = if decide (recipientId t = addr)
    then set_balance (repo addr) (balance (repo addr) + amount t)
    else repo addr.
Proof.
  unfold bootstrap_step, findByAddress.
  destruct (decide (recipientId t = addr)) as [<- | Hne].
  - apply fn_lookup_insert.
  - apply fn_lookup_insert_ne. exact Hne.
Qed.

Lemma received_total_cons (addr : string) (t : ReceivedTransaction)
    (transactions : list ReceivedTransaction) :
  received_total addr (t :: transactions)
  = (if decide (recipientId t = addr) then amount t else 0)
    + received_total addr transactions.
Proof.
  unfold received_total. rewrite filter_cons.
  destruct (decide (recipientId t = addr)); reflexivity.
Qed.

Lemma bootstrap_balance (transactions : list ReceivedTransaction)
    (repo : WalletRepository) (addr : string) :
  balance (findByAddress (bootstrap transactions repo) addr)
  = balance (findByAddress repo addr) + received_total addr transactions.
Proof.
  unfold bootstrap, findByAddress. revert repo.
  induction transactions as [|t transactions IH]; intros repo.
  - unfold received_total. simpl. lia.
  - simpl fold_left. rewrite IH, received_total_cons, bootstrap_step_at.
    destruct (decide (recipientId t = addr)); simpl; lia.
Qed.

Lemma bootstrap_rest (transactions : list ReceivedTransaction)
    (repo : WalletRepository) (addr : string) :
  findByAddress (bootstrap transactions repo) addr
  = set_balance (findByAddress repo addr)
      (balance (findByAddress (bootstrap transactions repo) addr)).
Proof.
  unfold bootstrap, findByAddress. revert repo.
  induction transactions as [|t transactions IH]; intros repo.
  - simpl. destruct (repo addr). reflexivity.
  - simpl fold_left. rewrite IH at 1. rewrite bootstrap_step_at.
    destruct (decide (recipientId t = addr)); reflexivity.
Qed.

Lemma bootstrap_untouched (transactions : list ReceivedTransaction)
    (repo : WalletRepository) (addr : string) :
  addr ∉ recipientId <$> transactions ->
  bootstrap transactions repo addr = repo addr.
Proof.
  unfold bootstrap. revert repo.
  induction transactions as [|t transactions IH]; intros repo Hnot.
  - reflexivity.
  - rewrite fmap_cons, not_elem_of_cons in Hnot. destruct Hnot as [Hne Hnot].
    simpl fold_left. rewrite (IH _ Hnot), bootstrap_step_at.
    destruct (decide (recipientId t = addr)); [congruence | reflexivity].
Qed.

(** C9: one run of [bootstrap] over the received transactions raises the
    balance of every wallet by exactly the sum of the amounts of the
    transactions addressed to it; a second run over the bootstrapped
    repository adds the same sum once more. *)
Theorem bootstrap_adds_received (transactions : list ReceivedTransaction)
    (repo : WalletRepository) (addr : string) :
  balance (findByAddress (bootstrap transactions repo) addr)
  = balance (findByAddress repo addr) + received_total addr transactions
  /\ balance
       (findByAddress (bootstrap transactions (bootstrap transactions repo))
          addr)
     = balance (findByAddress repo addr)
       + received_total addr transactions
       + received_total addr transactions.
Proof.
  split.
  - apply bootstrap_balance.
  - rewrite !bootstrap_balance. reflexivity.
Qed.

(** C10: [bootstrap] changes nothing but balances: every wallet keeps its
    address, public key, nonce and attributes, and a wallet that is not the
    recipient of any replayed transaction is the same wallet afterwards. *)
Theorem bootstrap_frame (transactions : list ReceivedTransaction)
    (repo : WalletRepository) (addr : string) :
  let before := findByAddress repo addr in
  let after := findByAddress (bootstrap transactions repo) addr in
  nonce after = nonce before
  /\ attributes after = attributes before
  /\ address after = address before
  /\ publicKey after = publicKey before
  /\ after = set_balance before (balance after)
  /\ (addr ∉ recipientId <$> transactions -> after = before).
Proof.
  intros before after.
  assert (H : after = set_balance before (balance after))
    by apply bootstrap_rest.
  split; [rewrite H; reflexivity |].
  split; [rewrite H; reflexivity |].
  split; [rewrite H; reflexivity |].
  split; [rewrite H; reflexivity |].
  split; [exact H |].
  intros Hnot. apply bootstrap_untouched, Hnot.
Qed.

(** C9 and C10 on a small ledger. *)
Example bootstrap_sample :
  balance (bootstrap sample_transactions sample_wallet "alice") = 135
  /\ balance (bootstrap sample_transactions sample_wallet "bob") = 111
  /\ bootstrap sample_transactions sample_wallet "carol" = sample_wallet "carol"
  /\ nonce (bootstrap sample_transactions sample_wallet "alice") = 7.
Proof. repeat split. Qed.

(** ** Runs of the executable instance through every branch *)

Example encrypt_short_key :
  encrypt sample_libraries sample_hashAlgorithms sample_base58
    (repeat x11 31) true "pw"
  = ([], inl (PrivateKeyLengthError 32 31)).
Proof. reflexivity. Qed.

Example decryptRaw_short_buffer :
  decryptRaw sample_libraries sample_hashAlgorithms sample_base58
    [x01; x42; xe0] "pw"
  = ([], inl (Bip38LengthError 39 3)).
Proof. reflexivity. Qed.

Example decryptRaw_bad_prefix :
  decryptRaw sample_libraries sample_hashAlgorithms sample_base58
    ([x02; x42; xe0] ++ repeat x00 36) "pw"
  = ([], inl (Bip38PrefixError 1 2)).
Proof. reflexivity. Qed.

Example decryptRaw_bad_type :
  decryptRaw sample_libraries sample_hashAlgorithms sample_base58
    ([x01; x44; xe0] ++ repeat x00 36) "pw"
  = ([], inl (Bip38TypeError 0x42 0x44)).
Proof. reflexivity. Qed.

Example decryptRaw_bad_compression :
  decryptRaw sample_libraries sample_hashAlgorithms sample_base58
    ([x01; x42; xe1] ++ repeat x00 36) "pw"
  = ([], inl (Bip38CompressionError 0xc0 0xe1)).
Proof. reflexivity. Qed.

Example decryptRaw_bad_ec_flag :
  decryptRaw sample_libraries sample_hashAlgorithms sample_base58
    ([x01; x43; x25] ++ repeat x07 36) "pw"
  = ([], inl (AssertionError "Invalid private key.")).
Proof. reflexivity. Qed.

Example decryptRaw_ec_scrypt_calls :
  scrypt_params
    (trace_of (decryptRaw sample_libraries sample_hashAlgorithms
                 sample_base58 sample_ec_record "pw"))
  = [ {| scrypt_N := 16384; scrypt_r := 8; scrypt_p := 8 |};
      {| scrypt_N := 1024; scrypt_r := 1; scrypt_p := 1 |} ].
Proof. reflexivity. Qed.

Example verify_rejects_bad_flag :
  outcome (verify sample_base58
             (b58_encodeCheck sample_base58
                ([x01; x43; x25] ++ repeat x07 36))) = inr false.
Proof. reflexivity. Qed.

Example verify_rejects_short :
  outcome (verify sample_base58
             (b58_encodeCheck sample_base58 [x01; x42; xe0])) = inr false.
Proof. reflexivity. Qed.

Example encrypt_zero_key :
  encrypt sample_libraries sample_hashAlgorithms sample_base58
    zero_key false "pw"
  = ([EvPublicKey zero_key false], inl (JsError "Invalid private key.")).
Proof. vm_compute. reflexivity. Qed.

Example encrypt_group_order :
  valid_scalar
    [xff; xff; xff; xff; xff; xff; xff; xff; xff; xff; xff; xff; xff; xff;
     xff; xfe; xba; xae; xdc; xe6; xaf; x48; xa0; x3b; xbf; xd2; x5e; x8c;
     xd0; x36; x41; x41] = false
  /\ valid_scalar sample_key = true.
Proof. split; vm_compute; reflexivity. Qed.

(** ** Further properties of the codec *)

Section AddressPayload.

Context (libraries : Libraries) (hashAlgorithms : HashAlgorithms)
        (base58 : Base58).

(** X1: [getAddressPrivate] calls [getPublicKey], [hash160] and
    [encodeCheck], in this order, and nothing else.  The payload it encodes
    always has 21 bytes and starts with the version byte 0x00; when
    [hash160] returns 20 bytes, the payload is that byte followed by the
    hash.  When the key derivation throws, its error ends the run after
    the first call. *)
Theorem getAddressPrivate_payload (key : Buffer) (c : bool) :
  let run := getAddressPrivate libraries hashAlgorithms base58 key c in
  match lib_fromPrivateKeyWithAlgorithm libraries key c with
  | inr publicKey =>
      let h := ha_hash160 hashAlgorithms publicKey in
      exists payload,
        run
        = ([EvPublicKey key c; EvHash160 publicKey; EvEncodeCheck payload],
           inr (b58_encodeCheck base58 payload))
        /\ length payload = 21%nat
        /\ payload !! 0%nat = Some x00
        /\ (length h = 20%nat -> payload = x00 :: h)
  | inl message => run = ([EvPublicKey key c], inl (JsError message))
  end.
Proof.
  intros run. subst run.
  destruct (lib_fromPrivateKeyWithAlgorithm libraries key c)
    as [message | publicKey] eqn:Hpub.
  { apply getAddressPrivate_throws, Hpub. }
  intros h.
  exists (copy h (writeUInt8 x00 0 (Buffer_alloc 21)) 1).
  split; [apply getAddressPrivate_returns, Hpub |].
  unfold copy, writeUInt8, Buffer_alloc.
  change (<[0%nat:=x00]> (repeat x00 21)) with (repeat x00 21).
  rewrite repeat_length.
  change (take 1 (repeat x00 21)) with [x00].
  split; [| split].
  - rewrite length_take, !length_app, length_drop, repeat_length.
    simpl length. lia.
  - reflexivity.
  - intros Hh. rewrite Hh.
    change (drop (1 + 20) (repeat x00 21)) with (@nil byte).
    rewrite app_nil_r. apply take_ge. simpl. rewrite Hh. lia.
Qed.

End AddressPayload.

Section RecordLayout.

Context (libraries : Libraries) (hashAlgorithms : HashAlgorithms)
        (base58 : Base58).
Context (HL : CollaboratorLaws libraries hashAlgorithms base58).

(** X2: for a 32-byte key whose public key can be derived, [encryptRaw]
    returns exactly 39 bytes: 0x01, 0x42, the flag (0xE0 compressed, 0xC0
    not), the 4-byte salt and the 32-byte cipher text.  Every byte of the
    uninitialised buffer is overwritten. *)
Theorem encryptRaw_layout (K : Buffer) (c : bool) (P : string)
    (publicKey : Buffer) :
  length K = 32%nat ->
  lib_fromPrivateKeyWithAlgorithm libraries K c = inr publicKey ->
  let salt := address_salt hashAlgorithms base58 publicKey in
  let cipherText :=
    cipherText_of libraries hashAlgorithms base58 publicKey K P in
  outcome (encryptRaw libraries hashAlgorithms base58 K c P)
  = inr ([x01; x42; if c then xe0 else xc0] ++ salt ++ cipherText)
  /\ length salt = 4%nat
  /\ length cipherText = 32%nat.
Proof.
  intros HK Hpub salt cipherText. split; [| split].
  - apply (encryptRaw_outcome _ _ _ HL K c P publicKey HK Hpub).
  - apply (address_salt_length _ _ _ HL).
  - apply (cipherText_length _ _ _ HL publicKey K P HK).
Qed.

(** X7: under one passphrase [encrypt] is injective: when two keys with
    their flags encrypt to the same string, they are the same key and the
    same flag. *)
Theorem encrypt_injective (K K' : Buffer) (c c' : bool) (P s : string) :
  outcome (encrypt libraries hashAlgorithms base58 K c P) = inr s ->
  outcome (encrypt libraries hashAlgorithms base58 K' c' P) = inr s ->
  K = K' /\ c = c'.
Proof.
  intros Hs Hs'.
  destruct (encrypt_returned _ _ _ HL K c P s Hs) as (HK & pub & Hpub & E).
  destruct (encrypt_returned _ _ _ HL K' c' P s Hs')
    as (HK' & pub' & Hpub' & E').
  pose proof (round_trip_outcome _ _ _ HL K c P pub HK Hpub) as H1.
  pose proof (round_trip_outcome _ _ _ HL K' c' P pub' HK' Hpub') as H2.
  rewrite <- E in H1. rewrite <- E' in H2. rewrite H1 in H2.
  injection H2 as -> ->. split; reflexivity.
Qed.

End RecordLayout.

(** X2 on the executable instance. *)
Lemma encryptRaw_layout_witness :
  length sample_key = 32%nat
  /\ exists salt cipherText,
      outcome (encryptRaw sample_libraries sample_hashAlgorithms
                 sample_base58 sample_key true "pw")
      = inr ([x01; x42; xe0] ++ salt ++ cipherText)
      /\ length salt = 4%nat /\ length cipherText = 32%nat.
Proof.
  split; [reflexivity |].
  eexists. eexists.
  apply (encryptRaw_layout _ _ _ sample_laws sample_key true "pw"
           (x02 :: sample_key)).
  - reflexivity.
  - vm_compute. reflexivity.
Defined.

(** X7 on the executable instance: the string returned for the sample
    key. *)
Lemma encrypt_injective_witness :
  exists s,
    outcome (encrypt sample_libraries sample_hashAlgorithms sample_base58
               sample_key true "pw") = inr s
    /\ sample_key = sample_key /\ true = true.
Proof.
  eexists. split; [vm_compute; reflexivity |].
  eapply (encrypt_injective _ _ _ sample_laws sample_key sample_key true true
            "pw"); vm_compute; reflexivity.
Defined.

Section Checks.

Context (libraries : Libraries) (hashAlgorithms : HashAlgorithms)
        (base58 : Base58).

Lemma readUInt8_byte (buf : Buffer) (i : nat) (z : Z) :
  readUInt8 buf i = mret z -> exists b, buf !! i = Some b /\ z = byte_to_Z b.
Proof.
  unfold readUInt8. destruct (buf !! i) as [b |]; intros H.
  - injection H as <-. exists b. split; reflexivity.
  - discriminate H.
Qed.

(** The test of [verify] and the assertion of [decryptECMult] agree on
    every byte, and let four values through. *)
Lemma ec_flag_tests (b : byte) :
  (Z.land (byte_to_Z b) (Z.lnot 0x24) =? 0)
  = (Z.land (byte_to_Z b) 0x24 =? byte_to_Z b)
  /\ (Z.land (byte_to_Z b) 0x24 =? byte_to_Z b)
     = bool_decide (byte_to_Z b ∈ ec_flag_values).
Proof. destruct b; split; vm_compute; reflexivity. Qed.

(** X5: whatever 39 bytes it is given, the direct path (type 0x42) returns
    a key only if the public key of that key can be derived under the
    returned compression flag and the first four bytes of hash256 of its
    address are bytes 3..6 of the record. *)
Theorem direct_decrypt_checksum (buffer : Buffer) (passphrase : string)
    (r : IDecryptResult) :
  readUInt8 buffer 1 = mret 0x42 ->
  outcome (decryptRaw libraries hashAlgorithms base58 buffer passphrase)
  = inr r ->
  exists publicKey,
    lib_fromPrivateKeyWithAlgorithm libraries (privateKey r) (compressed r)
    = inr publicKey
    /\ address_salt hashAlgorithms base58 publicKey = slice 3 7 buffer.
Proof.
  intros H1 Hr.
  destruct (Nat.eq_dec (length buffer) 39%nat) as [Hlen | Hlen].
  2: { unfold decryptRaw in Hr. apply Nat.eqb_neq in Hlen.
       rewrite Hlen in Hr. discriminate Hr. }
  destruct (header_bytes buffer Hlen) as (prefix & type & flag & H0 & H1' & H2).
  rewrite H1 in H1'. injection H1' as <-.
  destruct (Z.eq_dec prefix 1) as [-> | Hp].
  2: { rewrite (decryptRaw_header libraries hashAlgorithms base58 buffer
                  passphrase prefix 66 flag Hlen H0 H1 H2) in Hr.
       apply Z.eqb_neq in Hp. rewrite Hp in Hr. discriminate Hr. }
  destruct (Z.eq_dec flag 0xe0) as [He0 | He0];
    [| destruct (Z.eq_dec flag 0xc0) as [Hc0 | Hc0]].
  3: { rewrite (decryptRaw_header libraries hashAlgorithms base58 buffer
                  passphrase 1 66 flag Hlen H0 H1 H2) in Hr.
       apply Z.eqb_neq in He0, Hc0. rewrite He0, Hc0 in Hr.
       discriminate Hr. }
  all: destruct (direct_path_run libraries hashAlgorithms base58 buffer
                   passphrase flag Hlen H0 H1 H2) as [_ Ho]; [tauto |].
  all: cbv zeta in Ho; rewrite Ho in Hr.
  all: destruct (lib_fromPrivateKeyWithAlgorithm libraries _ _)
         as [message | publicKey] eqn:Hpub in Hr; [discriminate Hr |].
  all: destruct (decide _) as [Heq | Hne] in Hr; [| discriminate Hr].
  all: injection Hr as <-; simpl; exists publicKey.
  all: split; [exact Hpub | symmetry; exact Heq].
Qed.

Lemma rejected_header (decoded : Buffer) (passphrase : string) :
  header_accepted decoded = false ->
  exists e,
    decryptRaw libraries hashAlgorithms base58 decoded passphrase
    = ([], inl e).
Proof.
  intros Hrej.
  destruct (Nat.eq_dec (length decoded) 39%nat) as [Hlen | Hlen].
  2: { eexists. unfold decryptRaw. apply Nat.eqb_neq in Hlen.
       rewrite Hlen. reflexivity. }
  destruct decoded as [|b0 [|b1 [|b2 rest]]]; try discriminate Hlen.
  rewrite (decryptRaw_header libraries hashAlgorithms base58 _ passphrase
             (byte_to_Z b0) (byte_to_Z b1) (byte_to_Z b2) Hlen
             eq_refl eq_refl eq_refl).
  unfold header_accepted in Hrej. rewrite Hlen in Hrej.
  change (39 =? 39)%nat with true in Hrej.
  destruct (ec_flag_tests b2) as [Hmask _]. rewrite Hmask in Hrej.
  destruct (byte_to_Z b0 =? 1); [| eexists; reflexivity].
  destruct (Z.eqb_spec (byte_to_Z b1) 67) as [H67 | H67].
  - destruct (Z.eqb_spec (byte_to_Z b1) 66) as [H66 | _]; [lia |].
    simpl in Hrej. apply Z.eqb_neq in Hrej.
    eexists. apply (decryptECMult_rejects libraries hashAlgorithms _
                      passphrase (byte_to_Z b2)); [reflexivity | exact Hrej].
  - destruct (byte_to_Z b1 =? 66); [| eexists; reflexivity].
    simpl in Hrej. rewrite Bool.orb_false_r in Hrej.
    apply Bool.orb_false_elim in Hrej. destruct Hrej as [Hc0 He0].
    rewrite He0, Hc0. eexists. reflexivity.
Qed.

Lemma accepted_header (decoded : Buffer) (passphrase : string) :
  header_accepted decoded = true ->
  let run := decryptRaw libraries hashAlgorithms base58 decoded passphrase in
  scrypt_params (trace_of run) <> []
  /\ ((exists r, outcome run = inr r)
      \/ outcome run = inl (AssertionError "deepEqual")
      \/ (exists message, outcome run = inl (JsError message))).
Proof.
  intros Hacc run. subst run.
  destruct decoded as [|b0 [|b1 [|b2 rest]]]; try discriminate Hacc.
  unfold header_accepted in Hacc.
  destruct (Nat.eqb_spec (length (b0 :: b1 :: b2 :: rest)) 39) as [Hlen |];
    [| discriminate Hacc].
  destruct (Z.eqb_spec (byte_to_Z b0) 1) as [H0 |]; [| discriminate Hacc].
  destruct (ec_flag_tests b2) as [Hmask _]. rewrite Hmask in Hacc.
  assert (R0 : readUInt8 (b0 :: b1 :: b2 :: rest) 0 = mret 1)
    by (unfold readUInt8; simpl; rewrite H0; reflexivity).
  destruct (Z.eqb_spec (byte_to_Z b1) 66) as [H66 | H66].
  - assert (R1 : readUInt8 (b0 :: b1 :: b2 :: rest) 1 = mret 66)
      by (unfold readUInt8; simpl; rewrite H66; reflexivity).
    assert (Hflag : byte_to_Z b2 = 224 \/ byte_to_Z b2 = 192).
    { destruct (Z.eqb_spec (byte_to_Z b1) 67) as [H67 | _]; [lia |].
      simpl in Hacc. rewrite Bool.orb_false_r in Hacc.
      apply Bool.orb_true_iff in Hacc.
      destruct Hacc as [H | H]; apply Z.eqb_eq in H; tauto. }
    split.
    + destruct (direct_trace libraries hashAlgorithms base58 _ passphrase
                  (byte_to_Z b2) Hlen R0 R1 eq_refl Hflag) as [_ Hps].
      rewrite Hps. discriminate.
    + destruct (direct_path_run libraries hashAlgorithms base58 _ passphrase
                  (byte_to_Z b2) Hlen R0 R1 eq_refl Hflag) as [_ Ho].
      cbv zeta in Ho. rewrite Ho.
      destruct (lib_fromPrivateKeyWithAlgorithm libraries _ _)
        as [message | publicKey].
      * right. right. eexists. reflexivity.
      * destruct (decide _); [left; eexists; reflexivity | right; left].
        reflexivity.
  - destruct (Z.eqb_spec (byte_to_Z b1) 67) as [H67 |]; [| discriminate Hacc].
    assert (R1 : readUInt8 (b0 :: b1 :: b2 :: rest) 1 = mret 67)
      by (unfold readUInt8; simpl; rewrite H67; reflexivity).
    simpl in Hacc. apply Z.eqb_eq in Hacc.
    rewrite (decryptRaw_header libraries hashAlgorithms base58 _ passphrase
               1 67 (byte_to_Z b2) Hlen R0 R1 eq_refl).
    change (negb (1 =? 1)) with false. change (67 =? 67) with true. cbv iota.
    destruct (ecmult_trace libraries hashAlgorithms
                (b0 :: b1 :: b2 :: rest) passphrase (byte_to_Z b2)
                eq_refl Hacc) as [_ Hps].
    cbv zeta in Hps. rewrite Hps. split; [discriminate |].
    destruct (lib_fromPrivateKeyWithAlgorithm libraries
                (ec_passFactor libraries hashAlgorithms
                   (negb (Z.land (byte_to_Z b2) 4 =? 0))
                   (drop 1 (b0 :: b1 :: b2 :: rest)) passphrase) true)
      as [message | publicKey] eqn:Hpub.
    + rewrite (decryptECMult_throws libraries hashAlgorithms
                 (b0 :: b1 :: b2 :: rest) passphrase
                 (byte_to_Z b2) message eq_refl Hacc Hpub).
      right. right. eexists. reflexivity.
    + rewrite (decryptECMult_returns libraries hashAlgorithms
                 (b0 :: b1 :: b2 :: rest) passphrase
                 (byte_to_Z b2) publicKey eq_refl Hacc Hpub).
      left. eexists. reflexivity.
Qed.

(** X3: [verify] answers true exactly for the strings on which [decrypt]
    gets past its structural checks.  After [true], [decrypt] stretches the
    passphrase and can only end in a result, in the address assertion of
    the direct path, or in the error thrown by a key derivation; after
    [false], [decrypt] throws right after [decodeCheck], before any other
    collaborator call. *)
Theorem verify_agrees_with_decrypt (bip38 passphrase : string) :
  let run := decrypt libraries hashAlgorithms base58 bip38 passphrase in
  (outcome (verify base58 bip38) = inr true ->
     scrypt_params (trace_of run) <> []
     /\ ((exists r, outcome run = inr r)
         \/ outcome run = inl (AssertionError "deepEqual")
         \/ (exists message, outcome run = inl (JsError message))))
  /\ (outcome (verify base58 bip38) = inr false ->
      exists e, run = ([EvDecodeCheck bip38], inl e))
  /\ (outcome (verify base58 bip38) = inr true
      \/ outcome (verify base58 bip38) = inr false).
Proof.
  intros run. subst run. rewrite (verify_run base58).
  unfold outcome at 1 3 4 5 6. simpl snd. unfold decrypt, decodeCheck.
  destruct (b58_decodeCheck base58 bip38) as [e | [decoded |]].
  - split; [discriminate |]. split; [| right; reflexivity].
    intros _. eexists. reflexivity.
  - rewrite bind_returned.
    destruct (header_accepted decoded) eqn:Hacc.
    + split; [| split; [discriminate | left; reflexivity]].
      intros _.
      destruct (accepted_header decoded passphrase Hacc) as [Hs Ho].
      split; [exact Hs | exact Ho].
    + split; [discriminate |]. split; [| right; reflexivity].
      intros _.
      destruct (rejected_header decoded passphrase Hacc) as [e He].
      rewrite He. eexists. reflexivity.
  - split; [discriminate |]. split; [| right; reflexivity].
    intros _. eexists. reflexivity.
Qed.

(** X4: [decryptECMult] lets exactly the flag bytes 0x00, 0x04, 0x20 and
    0x24 through: on any other flag it throws "Invalid private key." before
    any collaborator call; on these four the assertion passes, the run
    returns when the public key of the pass factor can be derived, and
    otherwise ends in the error of that key derivation. *)
Theorem decryptECMult_flag_values (buffer : Buffer) (passphrase : string)
    (flag : Z) :
  readUInt8 (drop 1 buffer) 1 = mret flag ->
  let run := decryptECMult libraries hashAlgorithms buffer passphrase in
  let passFactor :=
    ec_passFactor libraries hashAlgorithms (negb (Z.land flag 0x04 =? 0))
      (drop 1 buffer) passphrase in
  (flag ∈ ec_flag_values ->
     (forall msg, outcome run <> inl (AssertionError msg))
     /\ (forall publicKey,
           lib_fromPrivateKeyWithAlgorithm libraries passFactor true
           = inr publicKey ->
           exists r, outcome run = inr r)
     /\ (forall message,
           lib_fromPrivateKeyWithAlgorithm libraries passFactor true
           = inl message ->
           outcome run = inl (JsError message)))
  /\ (flag ∉ ec_flag_values ->
      run = ([], inl (AssertionError "Invalid private key."))).
Proof.
  intros Hflag run passFactor. subst run passFactor.
  destruct (readUInt8_byte _ _ _ Hflag) as (b & _ & ->).
  destruct (ec_flag_tests b) as [_ Hvals].
  split.
  - intros Hin.
    assert (Hb : bool_decide (byte_to_Z b ∈ ec_flag_values) = true)
      by (apply bool_decide_eq_true_2; exact Hin).
    rewrite <- Hvals in Hb. apply Z.eqb_eq in Hb.
    assert (Hret : forall publicKey,
              lib_fromPrivateKeyWithAlgorithm libraries _ true
              = inr publicKey -> _)
      by (intros publicKey Hpub;
          exact (decryptECMult_returns libraries hashAlgorithms buffer
                   passphrase (byte_to_Z b) publicKey Hflag Hb Hpub)).
    assert (Hthr : forall message,
              lib_fromPrivateKeyWithAlgorithm libraries _ true
              = inl message -> _)
      by (intros message Hpub;
          exact (decryptECMult_throws libraries hashAlgorithms buffer
                   passphrase (byte_to_Z b) message Hflag Hb Hpub)).
    cbv zeta in Hret, Hthr.
    split; [| split].
    + intros msg.
      destruct (lib_fromPrivateKeyWithAlgorithm libraries
                  (ec_passFactor libraries hashAlgorithms
                     (negb (Z.land (byte_to_Z b) 4 =? 0)) (drop 1 buffer)
                     passphrase) true) as [message | publicKey] eqn:Hpub.
      * rewrite (Hthr message eq_refl). discriminate.
      * rewrite (Hret publicKey eq_refl). discriminate.
    + intros publicKey Hpub. rewrite (Hret publicKey Hpub).
      eexists. reflexivity.
    + intros message Hpub. rewrite (Hthr message Hpub). reflexivity.
  - intros Hnot.
    assert (Hout : bool_decide (byte_to_Z b ∈ ec_flag_values) = false)
      by (apply bool_decide_eq_false_2; exact Hnot).
    rewrite <- Hvals in Hout. apply Z.eqb_neq in Hout.
    apply (decryptECMult_rejects libraries hashAlgorithms buffer passphrase
             (byte_to_Z b) Hflag Hout).
Qed.

End Checks.

(** X4 on the executable instance: flag 0x24 is let through. *)
Lemma decryptECMult_flag_values_witness :
  readUInt8 (drop 1 sample_ec_record) 1 = mret 0x24
  /\ exists r,
      outcome (decryptECMult sample_libraries sample_hashAlgorithms
                 sample_ec_record "pw") = inr r.
Proof.
  split; [reflexivity |].
  destruct (proj1 (decryptECMult_flag_values sample_libraries
                     sample_hashAlgorithms sample_ec_record "pw" 0x24
                     eq_refl)) as (_ & Hret & _).
  { unfold ec_flag_values. repeat constructor. }
  eapply Hret. vm_compute. reflexivity.
Defined.

(** X5 on the executable instance: the record written for the sample key. *)
Lemma direct_decrypt_checksum_witness :
  let record :=
    direct_record sample_libraries sample_hashAlgorithms sample_base58
      (x04 :: sample_key) sample_key false "abc" in
  readUInt8 record 1 = mret 0x42
  /\ exists publicKey,
      lib_fromPrivateKeyWithAlgorithm sample_libraries sample_key false
      = inr publicKey
      /\ address_salt sample_hashAlgorithms sample_base58 publicKey
         = slice 3 7 record.
Proof.
  split; [reflexivity |].
  apply (direct_decrypt_checksum sample_libraries sample_hashAlgorithms
           sample_base58 _ "abc"
           {| privateKey := sample_key; compressed := false |}).
  - reflexivity.
  - vm_compute. reflexivity.
Defined.

Section Alignment.

Context (libraries : Libraries) (hashAlgorithms : HashAlgorithms)
        (base58 : Base58).

Hypothesis scrypt_keylen : forall secret salt keylen params,
  length (lib_scryptSync libraries secret salt keylen params) = keylen.

Hypothesis xor_keeps_length : forall a b,
  length a = length b -> length (lib_xor libraries a b) = length a.

Hypothesis decipher_keeps_length : forall key data,
  length key = 32%nat -> (16 | length data)%nat ->
  length (lib_decipher libraries key data) = length data.

Lemma divide_16 (n k : nat) : n = (k * 16)%nat -> (16 | n)%nat.
Proof. intros ->. exists k. reflexivity. Qed.

Lemma half2_length (secret : BinaryLike) (salt : Buffer)
    (params : ScryptParams) :
  length (slice 32 64 (lib_scryptSync libraries secret salt 64 params))
  = 32%nat.
Proof. rewrite slice_length; [reflexivity |]. rewrite scrypt_keylen. lia. Qed.

Lemma half1_length (secret : BinaryLike) (salt : Buffer)
    (params : ScryptParams) :
  length (slice 0 32 (lib_scryptSync libraries secret salt 64 params))
  = 32%nat.
Proof. rewrite slice_length; [reflexivity |]. rewrite scrypt_keylen. lia. Qed.

Lemma address_trace_aligned (key : Buffer) (c : bool) :
  Forall aes_call_aligned
    (trace_of (getAddressPrivate libraries hashAlgorithms base58 key c)).
Proof.
  destruct (lib_fromPrivateKeyWithAlgorithm libraries key c)
    as [message | publicKey] eqn:Hpub.
  - rewrite (getAddressPrivate_throws libraries hashAlgorithms base58 key c
               message Hpub).
    repeat (apply List.Forall_cons; [exact I |]). apply List.Forall_nil.
  - rewrite (getAddressPrivate_returns libraries hashAlgorithms base58 key c
               publicKey Hpub).
    repeat (apply List.Forall_cons; [exact I |]). apply List.Forall_nil.
Qed.

Lemma encrypt_aligned (K : Buffer) (c : bool) (P : string) :
  Forall aes_call_aligned
    (trace_of (encrypt libraries hashAlgorithms base58 K c P)).
Proof.
  destruct (Nat.eqb_spec (length K) 32) as [HK | HK].
  2: { unfold encrypt, encryptRaw. apply Nat.eqb_neq in HK. rewrite HK.
       apply List.Forall_nil. }
  destruct (lib_fromPrivateKeyWithAlgorithm libraries K c)
    as [message | publicKey] eqn:Hpub.
  { rewrite (encrypt_throws libraries hashAlgorithms base58 K c P message
               HK Hpub).
    apply List.Forall_cons; [exact I | apply List.Forall_nil]. }
  unfold encrypt, encryptRaw. rewrite HK.
  change (negb (32 =? 32)%nat) with false. cbv iota.
  rewrite (getAddressPrivate_returns libraries hashAlgorithms base58 K c
             publicKey Hpub).
  simpl.
  repeat (apply List.Forall_cons; [exact I |]).
  apply List.Forall_cons.
  - split; [apply half2_length |].
    apply (divide_16 _ 2). rewrite xor_keeps_length; rewrite half1_length;
      [reflexivity | congruence].
  - repeat (apply List.Forall_cons; [exact I |]). apply List.Forall_nil.
Qed.

Lemma ecmult_blocks (seedBPass stripped : Buffer) :
  length seedBPass = 64%nat -> length stripped = 38%nat ->
  let key := slice 32 64 seedBPass in
  let part2 := slice 22 38 stripped in
  let tmp := lib_xor libraries (lib_decipher libraries key part2)
               (slice 16 32 (slice 0 32 seedBPass)) in
  length key = 32%nat
  /\ (16 | length part2)%nat
  /\ (16 | length (slice 14 22 stripped ++ slice 0 8 tmp))%nat.
Proof.
  intros HS Hb key part2 tmp.
  assert (Hkey : length key = 32%nat)
    by (unfold key; rewrite slice_length; lia).
  assert (Hp2 : length part2 = 16%nat)
    by (unfold part2; rewrite slice_length; lia).
  assert (Hd : length (lib_decipher libraries key part2) = 16%nat).
  { rewrite decipher_keeps_length; [exact Hp2 | exact Hkey |].
    apply (divide_16 _ 1). exact Hp2. }
  assert (Hh : length (slice 16 32 (slice 0 32 seedBPass)) = 16%nat).
  { rewrite slice_length; [reflexivity |]. rewrite slice_length; lia. }
  assert (Htmp : length tmp = 16%nat).
  { unfold tmp. rewrite xor_keeps_length; congruence. }
  split; [exact Hkey |]. split.
  - apply (divide_16 _ 1). exact Hp2.
  - apply (divide_16 _ 1). rewrite length_app, !slice_length; lia.
Qed.

Lemma ec_prefix_aligned (hasLotSeq : bool) (stripped : Buffer)
    (passphrase : string) :
  Forall aes_call_aligned
    (ec_trace_prefix libraries hashAlgorithms hasLotSeq stripped passphrase).
Proof.
  unfold ec_trace_prefix. destruct hasLotSeq;
    repeat (apply List.Forall_cons; [exact I |]); apply List.Forall_nil.
Qed.

Lemma ec_suffix_aligned (hasLotSeq : bool) (stripped : Buffer)
    (passphrase : string) (publicKey : Buffer) :
  length stripped = 38%nat ->
  Forall aes_call_aligned
    (ec_trace_suffix libraries hashAlgorithms hasLotSeq stripped passphrase
       publicKey).
Proof.
  intros Hb.
  destruct (ecmult_blocks (ec_seedBPass libraries stripped publicKey)
              stripped) as (Hk & H1 & H2);
    [apply scrypt_keylen | exact Hb |].
  cbv zeta in Hk, H1, H2.
  unfold ec_trace_suffix, ec_tmp. cbv zeta.
  repeat (apply List.Forall_cons; [simpl; auto |]). apply List.Forall_nil.
Qed.

Lemma ecmult_aligned (buffer : Buffer) (passphrase : string) :
  length buffer = 39%nat ->
  Forall aes_call_aligned
    (trace_of (decryptECMult libraries hashAlgorithms buffer passphrase)).
Proof.
  intros Hlen.
  assert (Hb : length (drop 1 buffer) = 38%nat)
    by (rewrite length_drop; lia).
  destruct (header_bytes buffer Hlen) as (prefix & type & flag & _ & _ & H2).
  assert (Hflag : readUInt8 (drop 1 buffer) 1 = mret flag).
  { unfold readUInt8 in *. rewrite lookup_drop. exact H2. }
  destruct (Z.eq_dec (Z.land flag 0x24) flag) as [Hmask | Hmask].
  2: { rewrite (decryptECMult_rejects libraries hashAlgorithms buffer
                  passphrase flag Hflag Hmask).
       apply List.Forall_nil. }
  destruct (lib_fromPrivateKeyWithAlgorithm libraries
              (ec_passFactor libraries hashAlgorithms
                 (negb (Z.land flag 4 =? 0)) (drop 1 buffer) passphrase)
              true) as [message | publicKey] eqn:Hpub.
  - rewrite (decryptECMult_throws libraries hashAlgorithms buffer passphrase
               flag message Hflag Hmask Hpub).
    apply ec_prefix_aligned.
  - rewrite (decryptECMult_returns libraries hashAlgorithms buffer passphrase
               flag publicKey Hflag Hmask Hpub).
    unfold trace_of. cbn [fst]. apply Forall_app. split.
    + apply ec_prefix_aligned.
    + apply ec_suffix_aligned, Hb.
Qed.

Lemma decryptRaw_aligned (buffer : Buffer) (passphrase : string) :
  Forall aes_call_aligned
    (trace_of (decryptRaw libraries hashAlgorithms base58 buffer passphrase)).
Proof.
  destruct (Nat.eq_dec (length buffer) 39%nat) as [Hlen | Hlen].
  2: { unfold decryptRaw. apply Nat.eqb_neq in Hlen. rewrite Hlen.
       apply List.Forall_nil. }
  destruct (header_bytes buffer Hlen)
    as (prefix & type & flag & H0 & H1 & H2).
  destruct (Z.eqb_spec prefix 1) as [-> | Hp].
  2: { rewrite (decryptRaw_header libraries hashAlgorithms base58 buffer
                  passphrase prefix type flag Hlen H0 H1 H2).
       apply Z.eqb_neq in Hp. rewrite Hp. apply List.Forall_nil. }
  destruct (Z.eqb_spec type 67) as [-> | H67].
  { rewrite (decryptRaw_header libraries hashAlgorithms base58 buffer
               passphrase 1 67 flag Hlen H0 H1 H2).
    apply ecmult_aligned, Hlen. }
  destruct (Z.eqb_spec type 66) as [-> | H66].
  2: { rewrite (decryptRaw_header libraries hashAlgorithms base58 buffer
                  passphrase 1 type flag Hlen H0 H1 H2).
       apply Z.eqb_neq in H67, H66. rewrite H67, H66.
       apply List.Forall_nil. }
  destruct (Z.eq_dec flag 0xe0) as [He0 | He0];
    [| destruct (Z.eq_dec flag 0xc0) as [Hc0 | Hc0]].
  3: { rewrite (decryptRaw_header libraries hashAlgorithms base58 buffer
                  passphrase 1 66 flag Hlen H0 H1 H2).
       apply Z.eqb_neq in He0, Hc0. rewrite He0, Hc0.
       apply List.Forall_nil. }
  all: destruct (direct_path_run libraries hashAlgorithms base58 buffer
                   passphrase flag Hlen H0 H1 H2) as [Ht _]; [tauto |].
  all: cbv zeta in Ht; rewrite Ht; clear Ht.
  all: apply Forall_app; split; [| apply Forall_app; split].
  all: try apply address_trace_aligned.
  all: try (destruct (lib_fromPrivateKeyWithAlgorithm libraries _ _);
            repeat (apply List.Forall_cons; [exact I |]);
            apply List.Forall_nil).
  all: apply List.Forall_cons; [exact I |].
  all: apply List.Forall_cons;
         [| apply List.Forall_cons; [exact I | apply List.Forall_nil]].
  all: split; [apply half2_length |].
  all: apply (divide_16 _ 2); rewrite slice_length; lia.
Qed.

(** X6: the AES adapter is only ever handed whole blocks: in every run of
    [encrypt] and of [decrypt], each cipher or decipher call gets a 32-byte
    key and data whose length is a multiple of 16. *)
Theorem aes_calls_block_aligned :
  (forall K c P,
     Forall aes_call_aligned
       (trace_of (encrypt libraries hashAlgorithms base58 K c P)))
  /\ (forall bip38 passphrase,
        Forall aes_call_aligned
          (trace_of (decrypt libraries hashAlgorithms base58 bip38
                       passphrase))).
Proof.
  split; [apply encrypt_aligned |].
  intros bip38 passphrase. unfold decrypt, decodeCheck.
  destruct (b58_decodeCheck base58 bip38) as [e | [buffer |]].
  - apply List.Forall_cons; [exact I | apply List.Forall_nil].
  - rewrite bind_returned. unfold trace_of at 1. simpl fst.
    apply List.Forall_cons; [exact I | apply decryptRaw_aligned].
  - apply List.Forall_cons; [exact I | apply List.Forall_nil].
Qed.

End Alignment.

Lemma sample_xor_length (a b : Buffer) :
  length a = length b -> length (zip_with byte_xor a b) = length a.
Proof. intros H. rewrite length_zip_with. lia. Qed.

(** X6 on the executable instance. *)
Lemma aes_calls_block_aligned_witness :
  Forall aes_call_aligned
    (trace_of (encrypt sample_libraries sample_hashAlgorithms sample_base58
                 sample_key true "pw"))
  /\ Forall aes_call_aligned
       (trace_of (decrypt sample_libraries sample_hashAlgorithms
                    sample_base58
                    (b58_encodeCheck sample_base58 sample_ec_record) "pw")).
Proof.
  destruct (aes_calls_block_aligned sample_libraries sample_hashAlgorithms
              sample_base58
              (fun secret salt keylen _ =>
                 sample_pad_length keylen (sample_bytes secret ++ salt))
              sample_xor_length
              (fun key data _ _ =>
                 length_map (byte_xor (sample_key_byte key)) data))
    as [Henc Hdec].
  split; [apply Henc | apply Hdec].
Defined.

Section ECKey.

Context (libraries : Libraries) (hashAlgorithms : HashAlgorithms).

Lemma slice_stripped (i j : nat) (buffer : Buffer) :
  slice (2 + i) (2 + j) (drop 1 buffer) = slice i j (drop 3 buffer).
Proof.
  unfold slice. rewrite !drop_drop. reflexivity.
Qed.

Lemma ec_values_of_body (hasLotSeq : bool) (buffer buffer' : Buffer)
    (passphrase : string) (publicKey : Buffer) :
  drop 3 buffer = drop 3 buffer' ->
  ec_passFactor libraries hashAlgorithms hasLotSeq (drop 1 buffer) passphrase
  = ec_passFactor libraries hashAlgorithms hasLotSeq (drop 1 buffer')
      passphrase
  /\ ec_privateKey libraries hashAlgorithms hasLotSeq (drop 1 buffer)
       passphrase publicKey
     = ec_privateKey libraries hashAlgorithms hasLotSeq (drop 1 buffer')
         passphrase publicKey.
Proof.
  intros Hdrop.
  unfold ec_privateKey, ec_seedB, ec_tmp, ec_seedBPass, ec_passFactor,
    ec_preFactor, ec_ownerSalt, ec_ownerEntropy.
  cbv zeta.
  rewrite !(slice_stripped 0 4), !(slice_stripped 4 12),
    !(slice_stripped 12 20), !(slice_stripped 20 36).
  rewrite Hdrop. split; reflexivity.
Qed.

(** X8: in the EC-multiply path the private key is computed from the
    passphrase, the lot/sequence bit and bytes 3..38 of the record only:
    two records that agree on these end alike, whatever their version byte
    and compression bit.  Either both return the same key, each with its
    own compression flag, or both end in the same key-derivation error. *)
Theorem ecmult_key_ignores_compression (buffer buffer' : Buffer)
    (passphrase : string) (flag flag' : Z) :
  readUInt8 (drop 1 buffer) 1 = mret flag ->
  readUInt8 (drop 1 buffer') 1 = mret flag' ->
  Z.land flag 0x24 = flag ->
  Z.land flag' 0x24 = flag' ->
  Z.land flag 0x04 = Z.land flag' 0x04 ->
  drop 3 buffer = drop 3 buffer' ->
  let run := decryptECMult libraries hashAlgorithms buffer passphrase in
  let run' := decryptECMult libraries hashAlgorithms buffer' passphrase in
  (exists key,
      outcome run
      = inr {| privateKey := key;
               compressed := negb (Z.land flag 0x20 =? 0) |}
      /\ outcome run'
         = inr {| privateKey := key;
                  compressed := negb (Z.land flag' 0x20 =? 0) |})
  \/ (exists message,
        outcome run = inl (JsError message)
        /\ outcome run' = inl (JsError message)).
Proof.
  intros Hflag Hflag' Hmask Hmask' Hlot Hdrop run run'. subst run run'.
  destruct (lib_fromPrivateKeyWithAlgorithm libraries
              (ec_passFactor libraries hashAlgorithms
                 (negb (Z.land flag 4 =? 0)) (drop 1 buffer) passphrase)
              true) as [message | publicKey] eqn:Hpub.
  - right. exists message.
    rewrite (decryptECMult_throws libraries hashAlgorithms buffer passphrase
               flag message Hflag Hmask Hpub).
    destruct (ec_values_of_body (negb (Z.land flag 4 =? 0)) buffer buffer'
                passphrase []) as [Hpf _]; [exact Hdrop |].
    rewrite Hpf, Hlot in Hpub.
    rewrite (decryptECMult_throws libraries hashAlgorithms buffer' passphrase
               flag' message Hflag' Hmask' Hpub).
    split; reflexivity.
  - left.
    rewrite (decryptECMult_returns libraries hashAlgorithms buffer passphrase
               flag publicKey Hflag Hmask Hpub).
    destruct (ec_values_of_body (negb (Z.land flag 4 =? 0)) buffer buffer'
                passphrase publicKey) as [Hpf Hkey]; [exact Hdrop |].
    rewrite Hpf, Hlot in Hpub.
    rewrite (decryptECMult_returns libraries hashAlgorithms buffer' passphrase
               flag' publicKey Hflag' Hmask' Hpub).
    eexists. split; [reflexivity |].
    unfold outcome. simpl snd. rewrite <- Hlot, Hkey. reflexivity.
Qed.

End ECKey.

(** X8 on the executable instance: flags 0x24 and 0x04 over the same
    body. *)
Lemma ecmult_key_ignores_compression_witness :
  exists key,
    outcome (decryptECMult sample_libraries sample_hashAlgorithms
               sample_ec_record "pw")
    = inr {| privateKey := key; compressed := true |}
    /\ outcome (decryptECMult sample_libraries sample_hashAlgorithms
                  ([xff; x43; x04] ++ repeat x07 36) "pw")
       = inr {| privateKey := key; compressed := false |}.
Proof.
  destruct (ecmult_key_ignores_compression sample_libraries
              sample_hashAlgorithms sample_ec_record
              ([xff; x43; x04] ++ repeat x07 36) "pw" 0x24 0x04
              eq_refl eq_refl eq_refl eq_refl eq_refl eq_refl)
    as [Hkey | (message & Hthrown & _)].
  - exact Hkey.
  - vm_compute in Hthrown. discriminate Hthrown.
Defined.

(** ** Further properties of the bootstrap *)

Lemma bootstrap_closed (transactions : list ReceivedTransaction)
    (repo : WalletRepository) (addr : string) :
  bootstrap transactions repo addr
  = set_balance (repo addr)
      (balance (repo addr) + received_total addr transactions).
Proof.
  pose proof (bootstrap_rest transactions repo addr) as Hrest.
  pose proof (bootstrap_balance transactions repo addr) as Hbal.
  unfold findByAddress in Hrest, Hbal. rewrite Hrest, Hbal. reflexivity.
Qed.

Lemma received_total_perm (addr : string)
    (l l' : list ReceivedTransaction) :
  l ≡ₚ l' -> received_total addr l = received_total addr l'.
Proof.
  induction 1 as [| t l l' _ IH | t u l | l l' l'' _ IH1 _ IH2].
  - reflexivity.
  - rewrite !received_total_cons, IH. reflexivity.
  - rewrite !received_total_cons. lia.
  - congruence.
Qed.

(** X9: the order of the replayed transactions does not matter: over two
    lists that are permutations of each other [bootstrap] leaves the same
    wallet at every address. *)
Theorem bootstrap_permutation (l l' : list ReceivedTransaction)
    (repo : WalletRepository) (addr : string) :
  l ≡ₚ l' ->
  findByAddress (bootstrap l repo) addr
  = findByAddress (bootstrap l' repo) addr.
Proof.
  intros Hperm. unfold findByAddress.
  rewrite !bootstrap_closed, (received_total_perm addr l l' Hperm).
  reflexivity.
Qed.

(** X9 on the sample ledger, replayed backwards. *)
Lemma bootstrap_permutation_witness :
  findByAddress (bootstrap sample_transactions sample_wallet) "alice"
  = findByAddress (bootstrap (reverse sample_transactions) sample_wallet)
      "alice".
Proof.
  apply (bootstrap_permutation sample_transactions
           (reverse sample_transactions) sample_wallet "alice").
  symmetry. apply reverse_Permutation.
Defined.

Lemma received_total_nonneg (addr : string)
    (transactions : list ReceivedTransaction) :
  Forall (fun t => 0 <= amount t) transactions ->
  0 <= received_total addr transactions.
Proof.
  induction 1 as [| t l Ht _ IH].
  - unfold received_total. simpl. lia.
  - rewrite received_total_cons.
    destruct (decide (recipientId t = addr)); lia.
Qed.

(** X11: when no replayed amount is negative, [bootstrap] lowers no
    balance; a wallet that was not in debt is not in debt afterwards. *)
Theorem bootstrap_monotone (transactions : list ReceivedTransaction)
    (repo : WalletRepository) (addr : string) :
  Forall (fun t => 0 <= amount t) transactions ->
  balance (findByAddress repo addr)
  <= balance (findByAddress (bootstrap transactions repo) addr)
  /\ (0 <= balance (findByAddress repo addr) ->
      0 <= balance (findByAddress (bootstrap transactions repo) addr)).
Proof.
  intros Hpos. rewrite bootstrap_balance.
  pose proof (received_total_nonneg addr transactions Hpos). lia.
Qed.

(** X11 on the sample ledger. *)
Lemma bootstrap_monotone_witness :
  balance (findByAddress sample_wallet "bob")
  <= balance (findByAddress (bootstrap sample_transactions sample_wallet)
                "bob").
Proof.
  refine (proj1 (bootstrap_monotone sample_transactions sample_wallet
                   "bob" _)).
  unfold sample_transactions.
  repeat (apply List.Forall_cons; [simpl; lia |]). apply List.Forall_nil.
Defined.

Lemma total_balance_bootstrap (transactions : list ReceivedTransaction)
    (repo : WalletRepository) (addrs : list string) :
  total_balance (bootstrap transactions repo) addrs
  = total_balance repo addrs
    + foldr Z.add 0 ((fun a => received_total a transactions) <$> addrs).
Proof.
  unfold total_balance.
  induction addrs as [|a addrs IH].
  - reflexivity.
  - rewrite !fmap_cons. simpl foldr. rewrite IH, bootstrap_balance. lia.
Qed.

Lemma credited_once (t : ReceivedTransaction) (addrs : list string) :
  NoDup addrs -> recipientId t ∈ addrs ->
  foldr Z.add 0
    ((fun a => if decide (recipientId t = a) then amount t else 0) <$> addrs)
  = amount t.
Proof.
  induction 1 as [| a addrs Hnotin Hnodup IH]; intros Hin.
  - inversion Hin.
  - rewrite fmap_cons. simpl foldr.
    destruct (decide (recipientId t = a)) as [Heq | Hne].
    + assert (Hzero : foldr Z.add 0
                ((fun a => if decide (recipientId t = a) then amount t else 0)
                   <$> addrs) = 0).
      { clear IH Hin Hnodup. rewrite Heq.
        induction addrs as [|b addrs IHb]; [reflexivity |].
        rewrite fmap_cons. simpl foldr.
        rewrite not_elem_of_cons in Hnotin. destruct Hnotin as [Hab Hrest].
        destruct (decide (a = b)); [congruence |]. rewrite IHb by exact Hrest.
        reflexivity. }
      rewrite Hzero. lia.
    + rewrite IH; [lia |].
      apply elem_of_cons in Hin. destruct Hin as [Heq | Hin];
        [congruence | exact Hin].
Qed.

Lemma received_totals_add_up (transactions : list ReceivedTransaction)
    (addrs : list string) :
  NoDup addrs ->
  Forall (fun t => recipientId t ∈ addrs) transactions ->
  foldr Z.add 0 ((fun a => received_total a transactions) <$> addrs)
  = total_amount transactions.
Proof.
  intros Hnodup. induction 1 as [| t l Ht _ IH].
  - unfold total_amount. simpl.
    induction addrs as [|a addrs IHa]; [reflexivity |].
    rewrite fmap_cons. simpl foldr. rewrite IHa.
    + reflexivity.
    + inversion Hnodup; assumption.
  - unfold total_amount in *. rewrite fmap_cons. simpl foldr.
    rewrite <- IH, <- (credited_once t addrs Hnodup Ht).
    clear. induction addrs as [|a addrs IHa]; [reflexivity |].
    rewrite !fmap_cons. simpl foldr. rewrite IHa, received_total_cons. lia.
Qed.

(** X10: [bootstrap] creates and loses nothing: over any duplicate-free
    list of addresses that covers the recipients, the balances after the
    replay add up to the balances before plus the sum of all replayed
    amounts. *)
Theorem bootstrap_total (transactions : list ReceivedTransaction)
    (repo : WalletRepository) (addrs : list string) :
  NoDup addrs ->
  Forall (fun t => recipientId t ∈ addrs) transactions ->
  total_balance (bootstrap transactions repo) addrs
  = total_balance repo addrs + total_amount transactions.
Proof.
  intros Hnodup Hcover.
  rewrite total_balance_bootstrap.
  rewrite (received_totals_add_up transactions addrs Hnodup Hcover).
  reflexivity.
Qed.

(** X10 on the sample ledger: 300 before, 46 replayed. *)
Lemma bootstrap_total_witness :
  total_balance (bootstrap sample_transactions sample_wallet)
    ["alice"; "bob"; "carol"]
  = total_balance sample_wallet ["alice"; "bob"; "carol"]
    + total_amount sample_transactions.
Proof.
  apply (bootstrap_total sample_transactions sample_wallet
           ["alice"; "bob"; "carol"]).
  - apply (bool_decide_unpack _). vm_compute. exact I.
  - unfold sample_transactions.
    repeat (apply List.Forall_cons; [simpl; repeat constructor |]).
    apply Forall_nil_2.
Defined.
